(** * Recipe ingredient cost analyzer: a shallow embedding of [python.py]

    The development follows the source file top to bottom: the validating
    decorator, the [RecipeCost] class with its five methods, the CSV export,
    the JSON summary, the bar chart and the interactive script.

    Modelling choices.
    - Numbers (quantities, prices, costs) are exact rationals [Q]; numeric
      equality is [Qeq] ([==]), which is what Python's [==] on numbers means.
      The serving count is an integer [Z].
    - Quantities and prices are Python floats, as the script reads them, so a
      cost is a float and a total is a float as soon as one cost is added;
      the total of no cost is the int [0] that [sum] starts from. The type
      matters to [/]: an int divisor is first converted to a float, which
      raises [OverflowError] when the int is too large. Rounding, infinities
      and NaN are not modelled.
    - A Python [dict] from store names to prices is an association list kept
      in insertion order; [dict_setitem] is the only way the program builds
      one, and it keeps the keys unique ([dict_wf]).
    - A Python [set] enumerates its elements in an order the program does not
      control; [set_iteration] packages an arbitrary such order.
    - Methods run in a monad that threads the [RecipeCost] object and may
      raise; the object survives a raise, as it does in Python.
    - What the helpers write, draw and print is kept as data (rows, members,
      calls on [plt], console events), not as text.
    - The interactive script is run on the list of lines typed; the built-in
      conversions it applies to them are left open. *)

From Stdlib Require Import List String ZArith QArith Lia Bool.
Import ListNotations.

Local Open Scope string_scope.
Local Open Scope list_scope.
Local Open Scope Q_scope.

(** ** Python values used by the program *)

Module Py.

(** The exceptions raised by the program and by the operations it applies
    to its numbers. *)
Inductive exn : Type :=
| ValueError (msg : string)
| OverflowError (msg : string)
| ZeroDivisionError (msg : string).

Inductive outcome (A : Type) : Type :=
| Return (a : A)
| Raise (e : exn).
Arguments Return {A} a.
Arguments Raise {A} e.

(** [dict] with string keys, in insertion order. *)
Definition dict : Type := list (string * Q).

Definition items (d : dict) : list (string * Q) := d.
Definition keys (d : dict) : list string := map fst d.

(** [d.get(k)] *)
Fixpoint get (d : dict) (k : string) : option Q :=
  match d with
  | [] => None
  | (k', v) :: d' => if String.eqb k' k then Some v else get d' k
  end.

(** [d[k] = v]: overwrite in place, or insert at the end. *)
Fixpoint dict_setitem (d : dict) (k : string) (v : Q) : dict :=
  match d with
  | [] => [(k, v)]
  | (k', v') :: d' =>
      if String.eqb k' k then (k', v) :: d'
      else (k', v') :: dict_setitem d' k v
  end.

(** Keys of a dict are pairwise distinct. *)
Definition dict_wf (d : dict) : Prop := NoDup (keys d).

(** [sum(l)]: left to right, starting from [0]. *)
Definition sum (l : list Q) : Q := fold_left Qplus l 0.

(** [min(l, key=lambda x: x[1])] on a list of pairs: the first element
    whose second component is smallest; [ValueError] on the empty list. *)
Fixpoint min_from {A : Type} (best : A * Q) (l : list (A * Q)) : A * Q :=
  match l with
  | [] => best
  | x :: l' =>
      match snd x ?= snd best with
      | Lt => min_from x l'
      | _ => min_from best l'
      end
  end.

Definition min_by_snd {A : Type} (l : list (A * Q)) : outcome (A * Q) :=
  match l with
  | [] => Raise (ValueError "min() arg is an empty sequence")
  | x :: l' => Return (min_from x l')
  end.

(** The type of a number at run time. *)
Inductive numtype : Type :=
| IntType
| FloatType.

(** A number with its type. *)
Record number : Type := mkNumber {
  num_type : numtype;
  num_value : Q
}.

(** [sum(l)] for a list of floats, with its type: the int [0] for the empty
    list, a float otherwise. *)
Definition sum_number (l : list Q) : number :=
  {| num_type := match l with
                 | [] => IntType
                 | _ => FloatType
                 end;
     num_value := sum l |}.

(** The ints from [float_limit] on, in absolute value, have no float: the
    largest float is [2^1024 - 2^971], and an int is rounded to the nearest
    float, ties to even. *)
Definition float_limit : Z := (2 ^ 1024 - 2 ^ 970)%Z.

(** Conversion of an int to a float. *)
Definition float_of_int (n : Z) : outcome Q :=
  if (float_limit <=? Z.abs n)%Z
  then Raise (OverflowError "int too large to convert to float")
  else Return (inject_Z n).

(** [x / n] for an int [n]. When [x] is a float, [n] is converted first.
    The only int [x] of the program is [0]. *)
Definition truediv (x : number) (n : Z) : outcome Q :=
  match num_type x with
  | IntType =>
      if Z.eqb n 0 then Raise (ZeroDivisionError "division by zero")
      else Return (num_value x / inject_Z n)
  | FloatType =>
      match float_of_int n with
      | Raise e => Raise e
      | Return d =>
          if Z.eqb n 0 then Raise (ZeroDivisionError "float division by zero")
          else Return (num_value x / d)
      end
  end.

(** Iteration order of a [set] of strings built by adding the given
    elements one after the other: each distinct element once, in an order
    the program has no say in. *)
Record set_iteration : Type := {
  iter :> list string -> list string;
  iter_NoDup : forall l, NoDup (iter l);
  iter_In : forall l x, In x (iter l) <-> In x l
}.

End Py.
Import Py.

(** ** The object and the method monad *)

(** One entry of [self.ingredients]: the dict built in [add_ingredient]. *)
Record Ingredient : Type := mkIngredient {
  ing_name : string;
  ing_quantity : Q;
  ing_price_by_store : dict
}.

Record RecipeCost : Type := mkRecipeCost {
  name : string;
  servings : Z;
  ingredients : list Ingredient
}.

(** A method body: reads and updates [self], returns or raises. *)
Definition M (A : Type) : Type := RecipeCost -> outcome A * RecipeCost.

Definition ret {A : Type} (a : A) : M A := fun self => (Return a, self).

Definition raise {A : Type} (e : exn) : M A := fun self => (Raise e, self).

Definition bind {A B : Type} (m : M A) (f : A -> M B) : M B :=
  fun self =>
    match m self with
    | (Return a, self') => f a self'
    | (Raise e, self') => (Raise e, self')
    end.

Definition getattr {A : Type} (field : RecipeCost -> A) : M A :=
  fun self => (Return (field self), self).

(** [self.ingredients.append(x)] *)
Definition ingredients_append (x : Ingredient) : M unit :=
  fun self =>
    (Return tt,
     mkRecipeCost (name self) (servings self) (ingredients self ++ [x])).

Declare Scope py_scope.
Delimit Scope py_scope with py.
Notation "x <- m ;; k" := (bind m (fun x => k))
  (at level 61, m at next level, right associativity) : py_scope.
Notation "m ;; k" := (bind m (fun _ => k))
  (at level 61, right associativity) : py_scope.
Local Open Scope py_scope.

(** [for x in l: body x] *)
Fixpoint for_each {A : Type} (l : list A) (body : A -> M unit) : M unit :=
  match l with
  | [] => ret tt
  | x :: l' => body x ;; for_each l' body
  end.

(** A loop that accumulates into a local variable. *)
Fixpoint for_acc {A B : Type} (l : list A) (acc : B) (body : B -> A -> M B)
  : M B :=
  match l with
  | [] => ret acc
  | x :: l' => acc' <- body acc x ;; for_acc l' acc' body
  end.

(** ** [validate_ingredient_input] *)

Definition price_error (store : string) : exn :=
  ValueError ("Price for store '" ++ store ++ "' must be positive")%string.

Definition validate_ingredient_input
    (func : string -> Q -> dict -> M unit)
    (name : string) (quantity : Q) (price_by_store : dict) : M unit :=
  if String.eqb name "" then
    raise (ValueError "Ingredient name cannot be empty")
  else if Qle_bool quantity 0 then
    raise (ValueError "Quantity must be positive")
  else if match price_by_store with [] => true | _ => false end then
    raise (ValueError "price_by_store must be a non-empty dictionary")
  else
    for_each (items price_by_store)
      (fun '(store, price) =>
         if Qle_bool price 0 then raise (price_error store) else ret tt) ;;
    func name quantity price_by_store.

(** ** class [RecipeCost] *)

Definition init (name : string) (servings : Z) : outcome RecipeCost :=
  Return (mkRecipeCost name servings []).

Definition add_ingredient : string -> Q -> dict -> M unit :=
  validate_ingredient_input
    (fun name quantity price_by_store =>
       let ingredient := mkIngredient name quantity price_by_store in
       ingredients_append ingredient).

Definition ingredient_cost_for_store (ingredient : Ingredient)
    (store_name : string) : M (option Q) :=
  let cost_func := fun qty price : Q => qty * price in
  let price := get (ing_price_by_store ingredient) store_name in
  match price with
  | None => ret None
  | Some price => ret (Some (cost_func (ing_quantity ingredient) price))
  end.

Definition total_cost_at_store (store_name : string) : M Q :=
  ings <- getattr ingredients ;;
  costs <- for_acc ings []
             (fun costs ing =>
                c <- ingredient_cost_for_store ing store_name ;;
                match c with
                | Some c => ret (costs ++ [c])
                | None => ret costs
                end) ;;
  ret (sum costs).

(** The keys of a price map are strings, so looking [None] up finds
    nothing. *)
Definition get_arg (d : dict) (k : option string) : option Q :=
  match k with
  | Some s => get d s
  | None => None
  end.

(** [ingredient_cost_for_store], its [store_name] ranging over strings and
    [None]. *)
Definition ingredient_cost_for_store_arg (ingredient : Ingredient)
    (store_name : option string) : M (option Q) :=
  let cost_func := fun qty price : Q => qty * price in
  let price := get_arg (ing_price_by_store ingredient) store_name in
  match price with
  | None => ret None
  | Some price => ret (Some (cost_func (ing_quantity ingredient) price))
  end.

(** [total_cost_at_store] as its callers use it: [store_name] ranges over
    strings and [None], and the number returned carries its type. *)
Definition total_cost_at_store_value (store_name : option string)
  : M number :=
  ings <- getattr ingredients ;;
  costs <- for_acc ings []
             (fun costs ing =>
                c <- ingredient_cost_for_store_arg ing store_name ;;
                match c with
                | Some c => ret (costs ++ [c])
                | None => ret costs
                end) ;;
  ret (sum_number costs).

Definition per_serving_cost (store_name : string) : M Q :=
  total <- total_cost_at_store_value (Some store_name) ;;
  servings <- getattr servings ;;
  if Z.eqb servings 0 then ret 0
  else match truediv total servings with
       | Return v => ret v
       | Raise e => raise e
       end.

Definition cheapest_store (set_order : set_iteration)
  : M (option string * Q) :=
  ings <- getattr ingredients ;;
  match ings with
  | [] => ret (None, 0)
  | _ =>
      let all_stores :=
        set_order (flat_map (fun ing => keys (ing_price_by_store ing)) ings) in
      store_costs <- for_acc all_stores []
                       (fun store_costs store =>
                          cost <- total_cost_at_store store ;;
                          ret (store_costs ++ [(store, cost)])) ;;
      match min_by_snd store_costs with
      | Return (store, cost) => ret (Some store, cost)
      | Raise e => raise e
      end
  end.

(** ** [save_to_csv] *)

Module Csv.

(** The dict handed to [writer.writerow]. *)
Record Row : Type := mkRow {
  ingredient : string;
  quantity : Q;
  store : string;
  price_per_unit : Q;
  cost : Q
}.

Inductive line : Type :=
| HeaderLine (fieldnames : list string)
| RowLine (row : Row).

(** Contents of the file, first line first. *)
Definition file : Type := list line.

Definition writeheader (fieldnames : list string) (f : file) : file :=
  f ++ [HeaderLine fieldnames].

Definition writerow (row : Row) (f : file) : file :=
  f ++ [RowLine row].

Definition fieldnames : list string :=
  ["ingredient"; "quantity"; "store"; "price_per_unit"; "cost"].

(** The file is opened in mode ["w"], so writing starts from nothing. *)
Definition save_to_csv (recipe : RecipeCost) : file :=
  let f := [] in
  let f := writeheader fieldnames f in
  fold_left
    (fun f ing =>
       let name := ing_name ing in
       let qty := ing_quantity ing in
       fold_left
         (fun f '(store, price) =>
            let cost := qty * price in
            writerow (mkRow name qty store price cost) f)
         (items (ing_price_by_store ing)) f)
    (ingredients recipe) f.

(** Reading the export back: the lines below the header. *)
Definition data_rows (f : file) : list Row :=
  flat_map (fun l => match l with RowLine r => [r] | HeaderLine _ => [] end)
           (tl f).

(** Sum of the [cost] column over the rows of one store. *)
Definition cost_column_sum (S : string) (f : file) : Q :=
  sum (map cost (filter (fun r => String.eqb (store r) S) (data_rows f))).

End Csv.

(** ** Specification-side vocabulary *)

(** The store is a key of the ingredient's price map. *)
Definition priced_at (S : string) (ing : Ingredient) : Prop :=
  In S (keys (ing_price_by_store ing)).

Definition priced_atb (S : string) (ing : Ingredient) : bool :=
  existsb (String.eqb S) (keys (ing_price_by_store ing)).

(** The price the map gives for a store it contains. *)
Definition price_at (S : string) (ing : Ingredient) : Q :=
  match get (ing_price_by_store ing) S with
  | Some p => p
  | None => 0
  end.

(** Sum of [quantity * price] over the ingredients priced at [S]. *)
Fixpoint sum_over_priced (S : string) (ings : list Ingredient) : Q :=
  match ings with
  | [] => 0
  | ing :: rest =>
      if priced_atb S ing
      then ing_quantity ing * price_at S ing + sum_over_priced S rest
      else sum_over_priced S rest
  end.

(** Union of the store identifiers of all price maps. *)
Definition store_union (r : RecipeCost) : list string :=
  flat_map (fun ing => keys (ing_price_by_store ing)) (ingredients r).

(** One export row per (ingredient, store) pair, ingredients in insertion
    order and stores in the order of the ingredient's map. *)
Definition rows_of_ingredient (ing : Ingredient) : list Csv.Row :=
  map (fun sp =>
         Csv.mkRow (ing_name ing) (ing_quantity ing) (fst sp) (snd sp)
                   (ing_quantity ing * snd sp))
      (items (ing_price_by_store ing)).

Definition export_rows (r : RecipeCost) : list Csv.Row :=
  flat_map rows_of_ingredient (ingredients r).

(** The four reasons for which [add_ingredient] refuses its input. *)
Definition rejected (nm : string) (q : Q) (d : dict) : Prop :=
  nm = "" \/ q <= 0 \/ d = [] \/ exists s p, In (s, p) (items d) /\ p <= 0.

(** The data-model invariant of an ingredient accepted by [add_ingredient]. *)
Record ingredient_inv (ing : Ingredient) : Prop := {
  inv_name : ing_name ing <> "";
  inv_quantity : 0 < ing_quantity ing;
  inv_nonempty : ing_price_by_store ing <> [];
  inv_prices : forall s p, In (s, p) (items (ing_price_by_store ing)) -> 0 < p;
  inv_keys : dict_wf (ing_price_by_store ing)
}.

Definition recipe_inv (r : RecipeCost) : Prop :=
  Forall ingredient_inv (ingredients r).

(** The list of costs [total_cost_at_store] collects. *)
Definition costs_at (S : string) (ings : list Ingredient) : list Q :=
  flat_map (fun ing =>
              match get (ing_price_by_store ing) S with
              | Some p => [ing_quantity ing * p]
              | None => []
              end) ings.

(** The list of pairs [cheapest_store] collects. *)
Definition store_costs_of (r : RecipeCost) (stores : list string)
  : list (string * Q) :=
  map (fun s => (s, sum (costs_at s (ingredients r)))) stores.

(** A Python dict never repeats a key. *)
Definition dicts_wf (r : RecipeCost) : Prop :=
  Forall (fun ing => dict_wf (ing_price_by_store ing)) (ingredients r).

(** Every ingredient is priced somewhere: what [add_ingredient] checks
    before it stores a price map. *)
Definition all_priced (r : RecipeCost) : Prop :=
  Forall (fun ing => ing_price_by_store ing <> []) (ingredients r).

(** One possible [set] order: first occurrence first. *)
Definition first_occurrence_order : set_iteration :=
  {| iter := nodup string_dec;
     iter_NoDup := NoDup_nodup string_dec;
     iter_In := fun l x => nodup_In string_dec l x |}.

(** Another one: last inserted distinct element first. *)
Definition reversed_order : set_iteration :=
  {| iter := fun l => rev (nodup string_dec l);
     iter_NoDup := fun l => NoDup_rev (NoDup_nodup string_dec l);
     iter_In := fun l x =>
       iff_trans (iff_sym (in_rev (nodup string_dec l) x))
                 (nodup_In string_dec l x) |}.

(** ** Sessions: calls on one object, one after the other *)

Inductive call : Type :=
| AddIngredient (name : string) (quantity : Q) (price_by_store : dict)
| IngredientCostForStore (ingredient : Ingredient) (store_name : string)
| TotalCostAtStore (store_name : string)
| PerServingCost (store_name : string)
| CheapestStore.

Inductive value : Type :=
| VNone
| VCost (c : option Q)
| VNum (q : Q)
| VPair (store : option string) (total : Q).

Definition is_add (c : call) : bool :=
  match c with
  | AddIngredient _ _ _ => true
  | _ => false
  end.

Definition perform (set_order : set_iteration) (c : call) : M value :=
  match c with
  | AddIngredient name quantity price_by_store =>
      add_ingredient name quantity price_by_store ;; ret VNone
  | IngredientCostForStore ingredient store_name =>
      c <- ingredient_cost_for_store ingredient store_name ;; ret (VCost c)
  | TotalCostAtStore store_name =>
      t <- total_cost_at_store store_name ;; ret (VNum t)
  | PerServingCost store_name =>
      t <- per_serving_cost store_name ;; ret (VNum t)
  | CheapestStore =>
      p <- cheapest_store set_order ;; ret (VPair (fst p) (snd p))
  end.

(** The calls are made in order; a raise ends that call only, the caller
    catches it and goes on, as the interactive loop does. *)
Fixpoint session (set_order : set_iteration) (cs : list call)
    (self : RecipeCost) : list (outcome value) * RecipeCost :=
  match cs with
  | [] => ([], self)
  | c :: cs' =>
      let (res, self') := perform set_order c self in
      let (rs, self'') := session set_order cs' self' in
      (res :: rs, self'')
  end.

Definition state_after (set_order : set_iteration) (cs : list call)
    (self : RecipeCost) : RecipeCost :=
  snd (session set_order cs self).

(** ** The pancakes scenario *)

Definition flour : Ingredient :=
  mkIngredient "Flour" 2 [("A", 3); ("B", 2)].

Definition milk : Ingredient :=
  mkIngredient "Milk" 1 [("A", 4); ("B", 5)].

Definition pancakes : RecipeCost :=
  mkRecipeCost "Pancakes" 4 [flour; milk].

(** Building a recipe the way a caller does: constructor, then adds. *)
Definition build (name : string) (servings : Z) (adds : list Ingredient)
  : outcome RecipeCost :=
  match init name servings with
  | Return r =>
      match for_each adds
              (fun i =>
                 add_ingredient (ing_name i) (ing_quantity i)
                                (ing_price_by_store i)) r with
      | (Return _, r') => Return r'
      | (Raise e, _) => Raise e
      end
  | Raise e => Raise e
  end.

(** ** A store argument that may be [None] *)

(** [save_summary_to_json] hands the store returned by [cheapest_store] to
    [per_serving_cost], and [cheapest_store] returns [None] for a recipe
    without ingredients: [per_serving_cost] with a [store_name] ranging over
    strings and [None]. *)
Definition per_serving_cost_arg (store_name : option string) : M Q :=
  total <- total_cost_at_store_value store_name ;;
  servings <- getattr servings ;;
  if Z.eqb servings 0 then ret 0
  else match truediv total servings with
       | Return v => ret v
       | Raise e => raise e
       end.

(** ** [save_summary_to_json] *)

Module Json.

Inductive json : Type :=
| JNull
| JString (s : string)
| JInt (z : Z)
| JNumber (q : Q).

(** An object: its members in the order they are written. *)
Definition object : Type := list (string * json).

Definition of_store (store : option string) : json :=
  match store with
  | Some s => JString s
  | None => JNull
  end.

(** The [summary] dict that [json.dump] writes. The file is opened only
    once the dict is complete. *)
Definition save_summary_to_json (set_order : set_iteration) : M object :=
  p <- cheapest_store set_order ;;
  let '(cheapest_store_name, cheapest_cost) := p in
  recipe_name <- getattr name ;;
  servings <- getattr servings ;;
  per_serving <- per_serving_cost_arg cheapest_store_name ;;
  ret [("recipe_name", JString recipe_name);
       ("servings", JInt servings);
       ("cheapest_store", of_store cheapest_store_name);
       ("cheapest_total_cost", JNumber cheapest_cost);
       ("per_serving_cost_at_cheapest_store", JNumber per_serving)].

(** Reading a member back. *)
Fixpoint member (key : string) (o : object) : option json :=
  match o with
  | [] => None
  | (k, v) :: o' => if String.eqb k key then Some v else member key o'
  end.

End Json.

(** ** [plot_ingredient_costs] *)

Module Plot.

(** Exceptions that reach the top level of the script. *)
Inductive pyexn : Type :=
| Exn (e : exn)
| EOFError
| TypeError.

Inductive result (A : Type) : Type :=
| Done (a : A)
| Uncaught (e : pyexn).
Arguments Done {A} a.
Arguments Uncaught {A} e.

(** The calls made on [plt], in order. *)
Inductive plt_call : Type :=
| Bar (x : list string) (height : list Q) (color : string)
| Xlabel (s : string)
| Ylabel (s : string)
| Title (s : string)
| Show.

(** The [costs] list of the chart: an ingredient not priced at the store
    counts for 0. *)
Definition chart_costs (store_name : option string) : M (list Q) :=
  ings <- getattr ingredients ;;
  for_acc ings []
    (fun costs ing =>
       c <- ingredient_cost_for_store_arg ing store_name ;;
       let c := match c with
                | None => 0
                | Some c => c
                end in
       ret (costs ++ [c])).

(** With [None] as store the label ["Cost at " + store_name] cannot be
    built, after the bars and the first label are drawn. *)
Definition plot_ingredient_costs (store_name : option string)
    (recipe : RecipeCost) : result unit * RecipeCost * list plt_call :=
  let ingredient_names := map ing_name (ingredients recipe) in
  match chart_costs store_name recipe with
  | (Raise e, recipe) => (Uncaught (Exn e), recipe, [])
  | (Return costs, recipe) =>
      let calls :=
        [Bar ingredient_names costs "skyblue"; Xlabel "Ingredients"] in
      match store_name with
      | None => (Uncaught TypeError, recipe, calls)
      | Some store_name =>
          (Done tt, recipe,
           calls ++
           [Ylabel ("Cost at " ++ store_name)%string;
            Title ("Ingredient Costs for " ++ name recipe ++ " at "
                   ++ store_name)%string;
            Show])
      end
  end.

End Plot.

(** ** [run_recipe_cost_demo] *)

Module Demo.
Import Json Plot.

(** Built-in functions of the interpreter that the loop applies to what it
    reads. They are left open: the results hold whatever they return. A
    conversion that fails raises. *)
Record builtins : Type := {
  strip : string -> string;
  lower : string -> string;
  int : string -> outcome Z;
  float : string -> outcome Q
}.

(** A value given to [print]. *)
Inductive pyval : Type :=
| PStr (s : string)
| PInt (z : Z)
| PNum (q : Q)
| PNone
| PExn (e : exn).

(** What the script does to the outside, in order. *)
Inductive effect : Type :=
| Prompt (text : string)
| Print (args : list pyval)
| WriteCsv (filename : string) (content : Csv.file)
| WriteJson (filename : string) (content : Json.object)
| Plt (c : plt_call).

(** The places where the loop waits on [input]: lines 134, 138, 139, 143
    and 146, each with the local variables alive there. *)
Inductive point : Type :=
| AskAddMore
| AskIngredientName
| AskQuantity (ing_name : string)
| AskStoreName (ing_name : string) (qty : Q) (price_by_store : dict)
| AskPrice (ing_name : string) (qty : Q) (price_by_store : dict)
           (store_name : string).

Definition prompt_of (pc : point) : string :=
  match pc with
  | AskAddMore => "Add ingredient? (y/n): "
  | AskIngredientName => "Ingredient name: "
  | AskQuantity _ => "Quantity (e.g., 0.5 for 0.5 kg): "
  | AskStoreName _ _ _ => "Store name (or 'done' to stop adding stores): "
  | AskPrice _ _ _ store_name =>
      ("Price per unit at " ++ store_name ++ ": ")%string
  end.

Inductive next : Type :=
| Goto (pc : point) (recipe : RecipeCost) (printed : list effect)
| Break
| Abort (e : pyexn).

(** From one [input] to the next, given the line read. *)
Definition step (b : builtins) (pc : point) (recipe : RecipeCost)
    (line : string) : next :=
  match pc with
  | AskAddMore =>
      let add_more := lower b (strip b line) in
      if negb (String.eqb add_more "y") then Break
      else Goto AskIngredientName recipe []
  | AskIngredientName =>
      let ing_name := line in
      Goto (AskQuantity ing_name) recipe []
  | AskQuantity ing_name =>
      match float b line with
      | Raise e => Abort (Exn e)
      | Return qty => Goto (AskStoreName ing_name qty []) recipe []
      end
  | AskStoreName ing_name qty price_by_store =>
      let store_name := strip b line in
      if String.eqb (lower b store_name) "done" then
        match add_ingredient ing_name qty price_by_store recipe with
        | (Return _, recipe) => Goto AskAddMore recipe []
        | (Raise e, recipe) =>
            Goto AskAddMore recipe [Print [PStr "Error:"; PExn e]]
        end
      else Goto (AskPrice ing_name qty price_by_store store_name) recipe []
  | AskPrice ing_name qty price_by_store store_name =>
      match float b line with
      | Raise e => Abort (Exn e)
      | Return price =>
          Goto (AskStoreName ing_name qty
                  (dict_setitem price_by_store store_name price))
               recipe []
      end
  end.

(** The two nested [while True] loops, run on the lines still to be read.
    [input] shows its prompt, then raises [EOFError] when nothing is left. *)
Fixpoint interact (b : builtins) (pc : point) (recipe : RecipeCost)
    (inputs : list string) (log : list effect)
  : result RecipeCost * list effect :=
  let log := log ++ [Prompt (prompt_of pc)] in
  match inputs with
  | [] => (Uncaught EOFError, log)
  | line :: inputs' =>
      match step b pc recipe line with
      | Goto pc' recipe' printed =>
          interact b pc' recipe' inputs' (log ++ printed)
      | Break => (Done recipe, log)
      | Abort e => (Uncaught e, log)
      end
  end.

Definition results_banner : string :=
  String (Ascii.ascii_of_nat 10) "=== RESULTS ===".

Definition of_store (store : option string) : pyval :=
  match store with
  | Some s => PStr s
  | None => PNone
  end.

(** Lines 156 to 173. *)
Definition report (set_order : set_iteration) (recipe : RecipeCost)
  : result unit * list effect :=
  match ingredients recipe with
  | [] => (Done tt, [Print [PStr "No ingredients added, nothing to calculate."]])
  | _ :: _ =>
      match cheapest_store set_order recipe with
      | (Raise e, _) => (Uncaught (Exn e), [])
      | (Return (store, total), recipe) =>
          let log :=
            [Print [PStr results_banner];
             Print [PStr "Recipe name:"; PStr (name recipe)];
             Print [PStr "Servings:"; PInt (servings recipe)];
             Print [PStr "Cheapest store:"; of_store store];
             Print [PStr "Total cost at cheapest store:"; PNum total]] in
          match per_serving_cost_arg store recipe with
          | (Raise e, _) => (Uncaught (Exn e), log)
          | (Return per_serving, recipe) =>
              let log :=
                log ++
                [Print [PStr "Cost per serving at cheapest store:";
                        PNum per_serving];
                 WriteCsv "recipe_costs.csv" (Csv.save_to_csv recipe)] in
              match save_summary_to_json set_order recipe with
              | (Raise e, _) => (Uncaught (Exn e), log)
              | (Return summary, recipe) =>
                  let log :=
                    log ++
                    [WriteJson "recipe_summary.json" summary;
                     Print [PStr "Data saved to recipe_costs.csv and recipe_summary.json"]] in
                  let '(res, _, calls) := plot_ingredient_costs store recipe in
                  (res, log ++ map Plt calls)
              end
          end
      end
  end.

Definition run_recipe_cost_demo (b : builtins) (set_order : set_iteration)
    (inputs : list string) : result unit * list effect :=
  let log :=
    [Print [PStr "=== Recipe Ingredient Cost Analyzer ==="];
     Prompt "Enter recipe name: "] in
  match inputs with
  | [] => (Uncaught EOFError, log)
  | name :: inputs =>
      let log := log ++ [Prompt "Enter number of servings: "] in
      match inputs with
      | [] => (Uncaught EOFError, log)
      | line :: inputs =>
          match int b line with
          | Raise e => (Uncaught (Exn e), log)
          | Return servings =>
              match init name servings with
              | Raise e => (Uncaught (Exn e), log)
              | Return recipe =>
                  match interact b AskAddMore recipe inputs log with
                  | (Uncaught e, log) => (Uncaught e, log)
                  | (Done recipe, log) =>
                      let (res, printed) := report set_order recipe in
                      (res, log ++ printed)
                  end
              end
          end
      end
  end.

(** The price map under construction at a point has distinct keys. *)
Definition point_wf (pc : point) : Prop :=
  match pc with
  | AskStoreName _ _ d => dict_wf d
  | AskPrice _ _ d _ => dict_wf d
  | _ => True
  end.

(** A stand-in for the built-ins, enough to run the script on plain
    input: nothing is stripped or lowered, numbers are digit strings. *)
Fixpoint digits (s : string) (acc : Z) : option Z :=
  match s with
  | EmptyString => Some acc
  | String c s' =>
      let n := Ascii.nat_of_ascii c in
      if andb (Nat.leb 48 n) (Nat.leb n 57)
      then digits s' (10 * acc + Z.of_nat (n - 48))%Z
      else None
  end.

Definition plain_int (s : string) : outcome Z :=
  match s with
  | EmptyString => Raise (ValueError "not a number")
  | _ => match digits s 0 with
         | Some z => Return z
         | None => Raise (ValueError "not a number")
         end
  end.

Definition plain : builtins :=
  {| strip := fun s => s;
     lower := fun s => s;
     int := plain_int;
     float := fun s => match plain_int s with
                       | Return z => Return (inject_Z z)
                       | Raise e => Raise e
                       end |}.

End Demo.

(** ** Vocabulary for the further properties *)

(** The number [total_cost_at_store] returns. *)
Definition total_of (r : RecipeCost) (S : string) : Q :=
  match total_cost_at_store S r with
  | (Return t, _) => t
  | (Raise _, _) => 0
  end.

(** The decision [validate_ingredient_input] takes, as a boolean. *)
Definition acceptedb (nm : string) (q : Q) (d : dict) : bool :=
  negb (String.eqb nm "") && negb (Qle_bool q 0) &&
  negb (match d with [] => true | _ => false end) &&
  forallb (fun sp => negb (Qle_bool (snd sp) 0)) (items d).

(** The ingredients a sequence of calls adds to the recipe. *)
Definition accepted_ingredients (cs : list call) : list Ingredient :=
  flat_map
    (fun c =>
       match c with
       | AddIngredient nm q d =>
           if acceptedb nm q d then [mkIngredient nm q d] else []
       | _ => []
       end) cs.

(** The price maps handed to [add_ingredient] are dicts. *)
Definition call_wf (c : call) : Prop :=
  match c with
  | AddIngredient _ _ d => dict_wf d
  | _ => True
  end.

(** What the chart shows for one ingredient. *)
Definition bar_height (S : string) (ing : Ingredient) : Q :=
  match get (ing_price_by_store ing) S with
  | Some p => ing_quantity ing * p
  | None => 0
  end.

(** What the chart shows for one ingredient when the store may be [None]. *)
Definition bar_height_arg (k : option string) (ing : Ingredient) : Q :=
  match get_arg (ing_price_by_store ing) k with
  | Some p => ing_quantity ing * p
  | None => 0
  end.

(** The members of the summary, given the values they hold. *)
Definition summary_of (r : RecipeCost) (store : option string) (total : Q)
    (per_serving : Q) : Json.object :=
  [("recipe_name", Json.JString (name r));
   ("servings", Json.JInt (servings r));
   ("cheapest_store", Json.of_store store);
   ("cheapest_total_cost", Json.JNumber total);
   ("per_serving_cost_at_cheapest_store", Json.JNumber per_serving)].

(** Effects of the question-and-answer loop: text on the console. *)
Definition is_console (e : Demo.effect) : Prop :=
  match e with
  | Demo.Prompt _ | Demo.Print _ => True
  | _ => False
  end.

(** What the script prints, writes and draws once the loop is over, for a
    recipe with ingredients, given the cheapest store, its total and the
    per-serving cost. *)
Definition report_effects (r : RecipeCost) (store : string) (total : Q)
    (per_serving : Q) : list Demo.effect :=
  [Demo.Print [Demo.PStr Demo.results_banner];
   Demo.Print [Demo.PStr "Recipe name:"; Demo.PStr (name r)];
   Demo.Print [Demo.PStr "Servings:"; Demo.PInt (servings r)];
   Demo.Print [Demo.PStr "Cheapest store:"; Demo.PStr store];
   Demo.Print [Demo.PStr "Total cost at cheapest store:"; Demo.PNum total];
   Demo.Print [Demo.PStr "Cost per serving at cheapest store:";
               Demo.PNum per_serving];
   Demo.WriteCsv "recipe_costs.csv" (Csv.save_to_csv r);
   Demo.WriteJson "recipe_summary.json"
     (summary_of r (Some store) total per_serving);
   Demo.Print
     [Demo.PStr "Data saved to recipe_costs.csv and recipe_summary.json"];
   Demo.Plt (Plot.Bar (map ing_name (ingredients r))
                      (map (bar_height store) (ingredients r)) "skyblue");
   Demo.Plt (Plot.Xlabel "Ingredients");
   Demo.Plt (Plot.Ylabel ("Cost at " ++ store)%string);
   Demo.Plt (Plot.Title ("Ingredient Costs for " ++ name r ++ " at "
                         ++ store)%string);
   Demo.Plt Plot.Show].

(** The lines typed to enter the pancakes recipe, after its name and
    serving count. *)
Definition pancakes_lines : list string :=
  ["y"; "Flour"; "2"; "A"; "3"; "B"; "2"; "done";
   "y"; "Milk"; "1"; "A"; "4"; "B"; "5"; "done"; "n"].




(** What the tests of [validate_ingredient_input] leave true of a stored
    ingredient, said with the tests themselves. *)
Record ingredient_checked (ing : Ingredient) : Prop := {
  chk_name : ing_name ing <> "";
  chk_quantity : ~ ing_quantity ing <= 0;
  chk_nonempty : ing_price_by_store ing <> [];
  chk_prices :
    forall s p, In (s, p) (items (ing_price_by_store ing)) -> ~ p <= 0;
  chk_keys : dict_wf (ing_price_by_store ing)
}.

Definition recipe_checked (r : RecipeCost) : Prop :=
  Forall ingredient_checked (ingredients r).

(** The part of it that says nothing of numbers. *)
Record ingredient_shape (ing : Ingredient) : Prop := {
  shape_name : ing_name ing <> "";
  shape_nonempty : ing_price_by_store ing <> [];
  shape_keys : dict_wf (ing_price_by_store ing)
}.

Definition recipe_shape (r : RecipeCost) : Prop :=
  Forall ingredient_shape (ingredients r).

(** What the script has printed when [per_serving_cost] raises. *)
Definition report_prefix (r : RecipeCost) (store : string) (total : Q)
  : list Demo.effect :=
  [Demo.Print [Demo.PStr Demo.results_banner];
   Demo.Print [Demo.PStr "Recipe name:"; Demo.PStr (name r)];
   Demo.Print [Demo.PStr "Servings:"; Demo.PInt (servings r)];
   Demo.Print [Demo.PStr "Cheapest store:"; Demo.PStr store];
   Demo.Print [Demo.PStr "Total cost at cheapest store:"; Demo.PNum total]].

(** ** Dictionaries *)

Lemma get_Some_In (d : dict) (k : string) (v : Q) :
  get d k = Some v -> In (k, v) (items d).
Proof.
  induction d as [|[k' v'] d IH]; simpl; [discriminate|].
  destruct (String.eqb_spec k' k) as [->|Hne].
  - intros [= ->]. now left.
  - intros H. right. now apply IH.
Qed.

Lemma get_None_keys (d : dict) (k : string) :
  get d k = None <-> ~ In k (keys d).
Proof.
  induction d as [|[k' v'] d IH]; simpl.
  - split; [intros _ []|reflexivity].
  - destruct (String.eqb_spec k' k) as [->|Hne].
    + split; [discriminate|]. intros H. exfalso. apply H. now left.
    + rewrite IH. split.
      * intros H [E|E]; [now apply Hne|now apply H].
      * intros H E. apply H. now right.
Qed.

Lemma keys_get_Some (d : dict) (k : string) :
  In k (keys d) <-> exists v, get d k = Some v.
Proof.
  destruct (get d k) as [v|] eqn:E.
  - split; [intros _; now exists v|intros _].
    apply get_Some_In in E. unfold keys.
    change k with (fst (k, v)). now apply in_map.
  - apply get_None_keys in E. split; [tauto|]. intros [v Hv]. discriminate.
Qed.

Lemma In_get_wf (d : dict) (k : string) (v : Q) :
  dict_wf d -> In (k, v) (items d) -> get d k = Some v.
Proof.
  unfold dict_wf, keys, items.
  induction d as [|[k' v'] d IH]; simpl; [intros _ []|].
  intros Hnd [E|Hin].
  - inversion E; subst. now rewrite String.eqb_refl.
  - inversion Hnd as [|? ? Hnotin Hnd']; subst.
    destruct (String.eqb_spec k' k) as [->|Hne].
    + exfalso. apply Hnotin. change k with (fst (k, v)). now apply in_map.
    + now apply IH.
Qed.

Lemma priced_atb_spec (S : string) (ing : Ingredient) :
  priced_atb S ing = true <-> priced_at S ing.
Proof.
  unfold priced_atb, priced_at. rewrite existsb_exists. split.
  - intros [x [Hin Hx]]. apply String.eqb_eq in Hx. now subst.
  - intros H. exists S. split; [assumption|apply String.eqb_refl].
Qed.

Lemma dict_setitem_keys_In (d : dict) (k : string) (v : Q) (x : string) :
  In x (keys (dict_setitem d k v)) <-> x = k \/ In x (keys d).
Proof.
  induction d as [|[k' v'] d IH]; simpl.
  - intuition congruence.
  - destruct (String.eqb_spec k' k) as [->|Hne]; simpl.
    + intuition congruence.
    + rewrite IH. intuition congruence.
Qed.

(** Assignment keeps the keys of a dict distinct. *)
Lemma dict_setitem_wf (d : dict) (k : string) (v : Q) :
  dict_wf d -> dict_wf (dict_setitem d k v).
Proof.
  unfold dict_wf.
  induction d as [|[k' v'] d IH]; simpl; intros Hnd.
  - constructor; [intros []|constructor].
  - inversion Hnd as [|? ? Hnotin Hnd']; subst.
    destruct (String.eqb_spec k' k) as [->|Hne]; simpl.
    + now constructor.
    + constructor; [|now apply IH].
      intros Hin. apply dict_setitem_keys_In in Hin.
      destruct Hin as [->|Hin]; [now apply Hne|now apply Hnotin].
Qed.


(** ** Sums *)

Lemma fold_left_Qplus_acc (l : list Q) (a : Q) :
  fold_left Qplus l a == a + sum l.
Proof.
  unfold sum. revert a.
  induction l as [|x l IH]; intros a; simpl.
  - ring.
  - rewrite (IH (a + x)), (IH (0 + x)). ring.
Qed.

Lemma sum_cons (x : Q) (l : list Q) : sum (x :: l) == x + sum l.
Proof.
  unfold sum at 1. simpl. rewrite fold_left_Qplus_acc. ring.
Qed.

Lemma costs_at_none (S : string) (ings : list Ingredient) :
  (forall ing, In ing ings -> ~ priced_at S ing) -> costs_at S ings = [].
Proof.
  induction ings as [|ing ings IH]; intros H; simpl; [reflexivity|].
  assert (E : get (ing_price_by_store ing) S = None).
  { apply get_None_keys. apply H. now left. }
  rewrite E. simpl. apply IH. intros i Hi. apply H. now right.
Qed.


Lemma sum_costs_at (S : string) (ings : list Ingredient) :
  sum (costs_at S ings) == sum_over_priced S ings.
Proof.
  induction ings as [|ing ings IH]; simpl; [reflexivity|].
  unfold price_at.
  destruct (get (ing_price_by_store ing) S) as [p|] eqn:E.
  - assert (Hb : priced_atb S ing = true).
    { apply priced_atb_spec. apply keys_get_Some. now exists p. }
    rewrite Hb. simpl. rewrite sum_cons, IH. reflexivity.
  - assert (Hb : priced_atb S ing = false).
    { apply not_true_is_false. intros Hb. apply priced_atb_spec in Hb.
      now apply get_None_keys in E. }
    rewrite Hb. simpl. exact IH.
Qed.

(** ** Running the methods *)

Lemma bind_Return {A B : Type} (m : M A) (f : A -> M B) (a : A)
    (r r' : RecipeCost) :
  m r = (Return a, r') -> bind m f r = f a r'.
Proof. intros H. unfold bind. now rewrite H. Qed.

Lemma bind_Raise {A B : Type} (m : M A) (f : A -> M B) (e : exn)
    (r r' : RecipeCost) :
  m r = (Raise e, r') -> bind m f r = (Raise e, r').
Proof. intros H. unfold bind. now rewrite H. Qed.

Lemma ingredient_cost_run (ing : Ingredient) (S : string) (r : RecipeCost) :
  ingredient_cost_for_store ing S r =
  (Return (option_map (Qmult (ing_quantity ing))
                      (get (ing_price_by_store ing) S)), r).
Proof.
  unfold ingredient_cost_for_store.
  now destruct (get (ing_price_by_store ing) S).
Qed.

Lemma collect_costs_run (S : string) (ings : list Ingredient) (acc : list Q)
    (r : RecipeCost) :
  for_acc ings acc
    (fun costs ing =>
       c <- ingredient_cost_for_store ing S ;;
       match c with
       | Some c => ret (costs ++ [c])
       | None => ret costs
       end) r
  = (Return (acc ++ costs_at S ings), r).
Proof.
  revert acc.
  induction ings as [|ing ings IH]; intros acc; simpl.
  - now rewrite app_nil_r.
  - assert (Hstep :
      (c <- ingredient_cost_for_store ing S ;;
       match c with
       | Some c => ret (acc ++ [c])
       | None => ret acc
       end) r
      = (Return (acc ++ costs_at S [ing]), r)).
    { erewrite bind_Return by apply ingredient_cost_run. simpl.
      destruct (get (ing_price_by_store ing) S); simpl;
        now rewrite ?app_nil_r. }
    erewrite bind_Return by exact Hstep.
    rewrite IH, <- app_assoc. simpl. now rewrite app_nil_r.
Qed.

Lemma total_cost_run (S : string) (r : RecipeCost) :
  total_cost_at_store S r = (Return (sum (costs_at S (ingredients r))), r).
Proof.
  unfold total_cost_at_store.
  erewrite bind_Return by reflexivity.
  erewrite bind_Return by apply collect_costs_run.
  reflexivity.
Qed.

Lemma collect_costs_None (ings : list Ingredient) (acc : list Q)
    (r : RecipeCost) :
  for_acc ings acc
    (fun costs ing =>
       c <- ingredient_cost_for_store_arg ing None ;;
       match c with
       | Some c => ret (costs ++ [c])
       | None => ret costs
       end) r
  = (Return acc, r).
Proof.
  induction ings as [|ing ings IH]; [reflexivity|].
  simpl for_acc. erewrite bind_Return by reflexivity. exact IH.
Qed.

Lemma total_value_Some (S : string) (r : RecipeCost) :
  total_cost_at_store_value (Some S) r
  = (Return (sum_number (costs_at S (ingredients r))), r).
Proof.
  unfold total_cost_at_store_value.
  erewrite bind_Return by reflexivity.
  erewrite bind_Return by exact (collect_costs_run S (ingredients r) [] r).
  reflexivity.
Qed.

Lemma total_value_None (r : RecipeCost) :
  total_cost_at_store_value None r = (Return (sum_number []), r).
Proof.
  unfold total_cost_at_store_value.
  erewrite bind_Return by reflexivity.
  erewrite bind_Return by apply collect_costs_None.
  reflexivity.
Qed.

(** The value [total_cost_at_store_value] returns is the number
    [total_cost_at_store] returns. *)
Lemma total_value_agrees (S : string) (r : RecipeCost) :
  exists ty total,
    total_cost_at_store_value (Some S) r = (Return (mkNumber ty total), r) /\
    total_cost_at_store S r = (Return total, r).
Proof.
  rewrite total_value_Some, total_cost_run. unfold sum_number. eauto.
Qed.


Lemma truediv_int (x : number) (n : Z) :
  num_type x = IntType -> n <> 0%Z ->
  truediv x n = Return (num_value x / inject_Z n).
Proof.
  intros Hx Hn. unfold truediv. apply Z.eqb_neq in Hn. now rewrite Hx, Hn.
Qed.


Lemma per_serving_value_run (k : option string) (x : number)
    (r : RecipeCost) :
  total_cost_at_store_value k r = (Return x, r) ->
  per_serving_cost_arg k r =
  if Z.eqb (servings r) 0 then (Return 0, r)
  else match truediv x (servings r) with
       | Return v => (Return v, r)
       | Raise e => (Raise e, r)
       end.
Proof.
  intros Hx. unfold per_serving_cost_arg.
  erewrite bind_Return by exact Hx.
  erewrite bind_Return by reflexivity.
  destruct (Z.eqb (servings r) 0); [reflexivity|].
  now destruct (truediv x (servings r)).
Qed.

Lemma per_serving_run (S : string) (r : RecipeCost) :
  per_serving_cost S r =
  if Z.eqb (servings r) 0 then (Return 0, r)
  else match truediv (sum_number (costs_at S (ingredients r))) (servings r)
       with
       | Return v => (Return v, r)
       | Raise e => (Raise e, r)
       end.
Proof.
  exact (per_serving_value_run (Some S) _ r (total_value_Some S r)).
Qed.

Lemma per_serving_frame (S : string) (r : RecipeCost) :
  exists res, per_serving_cost S r = (res, r).
Proof.
  rewrite per_serving_run.
  destruct (Z.eqb (servings r) 0); [eauto|].
  destruct (truediv _ (servings r)); eauto.
Qed.


Lemma collect_store_costs_run (stores : list string)
    (acc : list (string * Q)) (r : RecipeCost) :
  for_acc stores acc
    (fun store_costs store =>
       cost <- total_cost_at_store store ;;
       ret (store_costs ++ [(store, cost)])) r
  = (Return (acc ++ store_costs_of r stores), r).
Proof.
  revert acc.
  induction stores as [|s stores IH]; intros acc; simpl.
  - now rewrite app_nil_r.
  - erewrite bind_Return.
    2:{ erewrite bind_Return by apply total_cost_run. reflexivity. }
    rewrite IH. now rewrite <- app_assoc.
Qed.

Lemma cheapest_store_run (o : set_iteration) (r : RecipeCost) :
  cheapest_store o r =
  match ingredients r with
  | [] => (Return (None, 0), r)
  | _ =>
      match min_by_snd (store_costs_of r (o (store_union r))) with
      | Return (store, cost) => (Return (Some store, cost), r)
      | Raise e => (Raise e, r)
      end
  end.
Proof.
  unfold cheapest_store.
  erewrite bind_Return by reflexivity.
  unfold store_union.
  destruct (ingredients r) as [|i l] eqn:E; [reflexivity|].
  erewrite bind_Return by apply collect_store_costs_run.
  simpl app.
  now destruct (min_by_snd _) as [[s c]|e].
Qed.

Lemma cheapest_store_run_nonempty (o : set_iteration) (r : RecipeCost) :
  ingredients r <> [] ->
  cheapest_store o r =
  match min_by_snd (store_costs_of r (o (store_union r))) with
  | Return (store, cost) => (Return (Some store, cost), r)
  | Raise e => (Raise e, r)
  end.
Proof.
  intros H. rewrite cheapest_store_run.
  now destruct (ingredients r).
Qed.

(** ** Minimum *)

Lemma min_from_In {A : Type} (best : A * Q) (l : list (A * Q)) :
  In (min_from best l) (best :: l).
Proof.
  revert best.
  induction l as [|x l IH]; intros best; simpl; [now left|].
  destruct (snd x ?= snd best).
  - destruct (IH best) as [H|H]; [now left|right; now right].
  - right. apply IH.
  - destruct (IH best) as [H|H]; [now left|right; now right].
Qed.

Lemma min_from_le_best {A : Type} (best : A * Q) (l : list (A * Q)) :
  snd (min_from best l) <= snd best.
Proof.
  revert best.
  induction l as [|x l IH]; intros best; simpl; [apply Qle_refl|].
  destruct (snd x ?= snd best) eqn:E; try apply IH.
  apply Qle_trans with (snd x); [apply IH|].
  apply Qlt_le_weak. now rewrite Qlt_alt.
Qed.

Lemma min_from_le {A : Type} (best : A * Q) (l : list (A * Q)) (y : A * Q) :
  In y (best :: l) -> snd (min_from best l) <= snd y.
Proof.
  revert best.
  induction l as [|x l IH]; intros best.
  - intros [<-|[]]. apply Qle_refl.
  - intros Hin. simpl.
    destruct (snd x ?= snd best) eqn:E.
    + destruct Hin as [<-|[<-|Hin]].
      * apply min_from_le_best.
      * apply Qle_trans with (snd best); [apply min_from_le_best|].
        apply Qeq_alt in E. rewrite E. apply Qle_refl.
      * apply IH. now right.
    + destruct Hin as [<-|[<-|Hin]].
      * apply Qle_trans with (snd x); [apply min_from_le_best|].
        apply Qlt_le_weak. now rewrite Qlt_alt.
      * apply min_from_le_best.
      * apply IH. now right.
    + destruct Hin as [<-|[<-|Hin]].
      * apply min_from_le_best.
      * apply Qle_trans with (snd best); [apply min_from_le_best|].
        apply Qlt_le_weak. now apply Qgt_alt.
      * apply IH. now right.
Qed.

(** What [cheapest_store] returns once some store is known. *)
Lemma cheapest_store_min (o : set_iteration) (r : RecipeCost) :
  ingredients r <> [] -> store_union r <> [] ->
  exists store total,
    cheapest_store o r = (Return (Some store, total), r) /\
    In store (store_union r) /\
    total = sum (costs_at store (ingredients r)) /\
    forall s, In s (store_union r) ->
              total <= sum (costs_at s (ingredients r)).
Proof.
  intros Hing Hun. rewrite cheapest_store_run_nonempty by assumption.
  destruct (o (store_union r)) as [|s0 ss] eqn:Eo.
  - exfalso. destruct (store_union r) as [|s u] eqn:Eu; [contradiction|].
    assert (H : In s (o (s :: u))) by (apply iter_In; now left).
    rewrite Eo in H. destruct H.
  - unfold store_costs_of, min_by_snd. rewrite map_cons.
    set (best := (s0, sum (costs_at s0 (ingredients r)))).
    set (rest := map (fun s => (s, sum (costs_at s (ingredients r)))) ss).
    pose proof (min_from_In best rest) as Hin.
    pose proof (min_from_le best rest) as Hle.
    destruct (min_from best rest) as [store total].
    assert (Hall : forall y, In y (best :: rest) <->
                   exists s, In s (store_union r) /\
                             y = (s, sum (costs_at s (ingredients r)))).
    { intros y.
      change (best :: rest)
        with (map (fun s => (s, sum (costs_at s (ingredients r)))) (s0 :: ss)).
      rewrite in_map_iff, <- Eo. split.
      - intros [s [<- Hs]]. exists s. split; [now apply iter_In in Hs|reflexivity].
      - intros [s [Hs ->]]. exists s. split; [reflexivity|now apply iter_In]. }
    exists store, total. split; [reflexivity|].
    apply Hall in Hin. destruct Hin as [s [Hs Heq]].
    injection Heq as -> ->.
    split; [assumption|]. split; [reflexivity|].
    intros s' Hs'.
    apply (Hle (s', sum (costs_at s' (ingredients r)))).
    apply Hall. now exists s'.
Qed.

(** ** Validation *)

Lemma check_prices_run (d : dict) (r : RecipeCost) :
  for_each (items d)
    (fun '(store, price) =>
       if Qle_bool price 0 then raise (price_error store) else ret tt) r
  = match find (fun sp => Qle_bool (snd sp) 0) (items d) with
    | Some (store, _) => (Raise (price_error store), r)
    | None => (Return tt, r)
    end.
Proof.
  unfold items.
  induction d as [|[s p] d IH]; simpl; [reflexivity|].
  destruct (Qle_bool p 0) eqn:E.
  - now apply bind_Raise.
  - erewrite bind_Return by reflexivity. exact IH.
Qed.

Lemma add_ingredient_run (nm : string) (q : Q) (d : dict) (r : RecipeCost) :
  add_ingredient nm q d r =
  if String.eqb nm "" then
    (Raise (ValueError "Ingredient name cannot be empty"), r)
  else if Qle_bool q 0 then
    (Raise (ValueError "Quantity must be positive"), r)
  else
    match d with
    | [] =>
        (Raise (ValueError "price_by_store must be a non-empty dictionary"), r)
    | _ =>
        match find (fun sp => Qle_bool (snd sp) 0) (items d) with
        | Some (store, _) => (Raise (price_error store), r)
        | None =>
            (Return tt,
             mkRecipeCost (name r) (servings r)
                          (ingredients r ++ [mkIngredient nm q d]))
        end
    end.
Proof.
  unfold add_ingredient, validate_ingredient_input.
  destruct (String.eqb nm ""); [reflexivity|].
  destruct (Qle_bool q 0); [reflexivity|].
  destruct d as [|sp d']; [reflexivity|].
  set (d := sp :: d').
  pose proof (check_prices_run d r) as Hc.
  destruct (find (fun sp => Qle_bool (snd sp) 0) (items d)) as [[s p]|].
  - now apply bind_Raise.
  - erewrite bind_Return by exact Hc. reflexivity.
Qed.

Lemma add_ingredient_cases (nm : string) (q : Q) (d : dict) (r : RecipeCost) :
  (rejected nm q d /\
   exists msg, add_ingredient nm q d r = (Raise (ValueError msg), r))
  \/
  (~ rejected nm q d /\
   add_ingredient nm q d r =
   (Return tt,
    mkRecipeCost (name r) (servings r)
                 (ingredients r ++ [mkIngredient nm q d]))).
Proof.
  rewrite add_ingredient_run. unfold rejected.
  destruct (String.eqb_spec nm "") as [->|Hnm].
  { left. split; [now left|eauto]. }
  destruct (Qle_bool q 0) eqn:Eq.
  { left. apply Qle_bool_iff in Eq. split; [right; now left|eauto]. }
  destruct d as [|sp d'].
  { left. split; [right; right; now left|eauto]. }
  set (d := sp :: d').
  destruct (find (fun sp => Qle_bool (snd sp) 0) (items d)) as [[s p]|] eqn:Ef.
  - left. apply find_some in Ef. destruct Ef as [Hin Hp]. simpl in Hp.
    apply Qle_bool_iff in Hp. split.
    + right; right; right. now exists s, p.
    + unfold price_error. eauto.
  - right. split; [|reflexivity].
    intros [H|[H|[H|[s [p [Hin Hp]]]]]].
    + now apply Hnm.
    + apply Qle_bool_iff in H. congruence.
    + discriminate.
    + apply (find_none _ _ Ef) in Hin. simpl in Hin.
      apply Qle_bool_iff in Hp. congruence.
Qed.

(** ** The invariant *)

Lemma init_inv (nm : string) (sv : Z) :
  exists r, init nm sv = Return r /\ recipe_inv r.
Proof.
  eexists. split; [reflexivity|]. constructor.
Qed.

Lemma add_ingredient_inv (nm : string) (q : Q) (d : dict) (r : RecipeCost) :
  dict_wf d -> recipe_inv r -> recipe_inv (snd (add_ingredient nm q d r)).
Proof.
  intros Hwf Hinv.
  destruct (add_ingredient_cases nm q d r) as [[_ [msg ->]]|[Hok ->]];
    [assumption|].
  unfold recipe_inv. simpl. apply Forall_app. split; [assumption|].
  constructor; [|constructor].
  unfold rejected in Hok. constructor; simpl.
  - intros E. apply Hok. now left.
  - apply Qnot_le_lt. intros E. apply Hok. right. now left.
  - intros E. apply Hok. right; right. now left.
  - intros s p Hin. apply Qnot_le_lt. intros E. apply Hok.
    right; right; right. now exists s, p.
  - assumption.
Qed.

Lemma recipe_inv_dicts_wf (r : RecipeCost) : recipe_inv r -> dicts_wf r.
Proof.
  unfold recipe_inv, dicts_wf. apply Forall_impl.
  intros ing H. apply (inv_keys ing H).
Qed.

Lemma recipe_inv_all_priced (r : RecipeCost) : recipe_inv r -> all_priced r.
Proof.
  unfold recipe_inv, all_priced. apply Forall_impl.
  intros ing H. apply (inv_nonempty ing H).
Qed.

(** Recipes built through the constructor and [add_ingredient] satisfy the
    invariant. *)
Lemma adds_inv (adds : list Ingredient) (r : RecipeCost) :
  Forall (fun i => dict_wf (ing_price_by_store i)) adds ->
  recipe_inv r ->
  recipe_inv
    (snd (for_each adds
            (fun i =>
               add_ingredient (ing_name i) (ing_quantity i)
                              (ing_price_by_store i)) r)).
Proof.
  intros Hwf. revert r.
  induction Hwf as [|i adds Hi _ IH]; intros r Hinv; [assumption|].
  simpl for_each.
  pose proof (add_ingredient_inv (ing_name i) (ing_quantity i)
                (ing_price_by_store i) r Hi Hinv) as Hstep.
  destruct (add_ingredient_cases (ing_name i) (ing_quantity i)
              (ing_price_by_store i) r) as [[_ [msg H]]|[_ H]].
  - now erewrite bind_Raise by exact H.
  - erewrite bind_Return by exact H. apply IH.
    now rewrite H in Hstep.
Qed.

Lemma build_inv (nm : string) (sv : Z) (adds : list Ingredient)
    (r : RecipeCost) :
  Forall (fun i => dict_wf (ing_price_by_store i)) adds ->
  build nm sv adds = Return r -> recipe_inv r.
Proof.
  intros Hwf. unfold build, init.
  pose proof (adds_inv adds (mkRecipeCost nm sv []) Hwf
                (Forall_nil ingredient_inv)) as Hinv.
  destruct (for_each adds _ (mkRecipeCost nm sv [])) as [[u|e] r'];
    [|discriminate].
  now intros [= <-].
Qed.

Lemma all_priced_store_union (r : RecipeCost) :
  all_priced r -> ingredients r <> [] -> store_union r <> [].
Proof.
  unfold all_priced, store_union.
  destruct (ingredients r) as [|ing l]; [contradiction|].
  intros Hinv _. inversion Hinv as [|? ? Hne _]; subst.
  unfold keys. simpl.
  destruct (ing_price_by_store ing) as [|[s p] d]; [contradiction|].
  simpl. discriminate.
Qed.

(** ** The export *)

Import Csv.

Lemma write_rows_of_ingredient (ing : Ingredient) (f : file) :
  fold_left
    (fun f '(store, price) =>
       let cost := ing_quantity ing * price in
       writerow (mkRow (ing_name ing) (ing_quantity ing) store price cost) f)
    (items (ing_price_by_store ing)) f
  = f ++ map RowLine (rows_of_ingredient ing).
Proof.
  unfold rows_of_ingredient, items.
  generalize (ing_price_by_store ing) as d. intros d. revert f.
  induction d as [|[s p] d IH]; intros f; simpl.
  - now rewrite app_nil_r.
  - rewrite IH. unfold writerow. now rewrite <- app_assoc.
Qed.

Lemma write_all_rows (ings : list Ingredient) (f : file) :
  fold_left
    (fun f ing =>
       let name := ing_name ing in
       let qty := ing_quantity ing in
       fold_left
         (fun f '(store, price) =>
            let cost := qty * price in
            writerow (mkRow name qty store price cost) f)
         (items (ing_price_by_store ing)) f)
    ings f
  = f ++ map RowLine (flat_map rows_of_ingredient ings).
Proof.
  revert f.
  induction ings as [|ing ings IH]; intros f; simpl.
  - now rewrite app_nil_r.
  - rewrite write_rows_of_ingredient, IH, map_app. now rewrite <- app_assoc.
Qed.

Lemma save_to_csv_run (r : RecipeCost) :
  save_to_csv r = HeaderLine fieldnames :: map RowLine (export_rows r).
Proof.
  unfold save_to_csv. cbv zeta. now rewrite write_all_rows.
Qed.

Lemma data_rows_save (r : RecipeCost) :
  data_rows (save_to_csv r) = export_rows r.
Proof.
  rewrite save_to_csv_run. unfold data_rows. simpl tl.
  induction (export_rows r) as [|row rows IH]; simpl; [reflexivity|].
  now rewrite IH.
Qed.

Lemma costs_of_store_rows (ing : Ingredient) (S : string) :
  dict_wf (ing_price_by_store ing) ->
  map cost (filter (fun row => String.eqb (store row) S)
                   (rows_of_ingredient ing))
  = costs_at S [ing].
Proof.
  unfold rows_of_ingredient, costs_at, dict_wf, keys, items. simpl.
  rewrite app_nil_r.
  generalize (ing_price_by_store ing) as d.
  induction d as [|[s p] d IH]; simpl; intros Hnd; [reflexivity|].
  inversion Hnd as [|? ? Hnotin Hnd']; subst.
  destruct (String.eqb_spec s S) as [->|Hne]; simpl.
  - f_equal. apply get_None_keys in Hnotin. rewrite Hnotin in IH.
    now apply IH.
  - now apply IH.
Qed.

Lemma costs_of_store_export (ings : list Ingredient) (S : string) :
  Forall (fun ing => dict_wf (ing_price_by_store ing)) ings ->
  map cost (filter (fun row => String.eqb (store row) S)
                   (flat_map rows_of_ingredient ings))
  = costs_at S ings.
Proof.
  induction 1 as [|ing ings Hwf _ IH]; simpl; [reflexivity|].
  rewrite filter_app, map_app, IH.
  rewrite (costs_of_store_rows ing S Hwf). simpl. now rewrite app_nil_r.
Qed.

(** ** Sessions *)

Lemma query_frame (o : set_iteration) (c : call) (r : RecipeCost) :
  is_add c = false -> snd (perform o c r) = r.
Proof.
  destruct c as [nm q d|ing S|S|S|]; simpl; [discriminate| | | |]; intros _.
  - now erewrite bind_Return by apply ingredient_cost_run.
  - now erewrite bind_Return by apply total_cost_run.
  - destruct (per_serving_frame S r) as [[v|e] H].
    + now erewrite bind_Return by exact H.
    + now erewrite bind_Raise by exact H.
  - destruct (ingredients r) as [|i l] eqn:E.
    + erewrite bind_Return; [reflexivity|].
      rewrite cheapest_store_run. now rewrite E.
    + assert (Hne : ingredients r <> []) by (rewrite E; discriminate).
      pose proof (cheapest_store_run_nonempty o r Hne) as Hrun.
      destruct (min_by_snd (store_costs_of r (o (store_union r))))
        as [[s t]|e].
      * now erewrite bind_Return by exact Hrun.
      * now erewrite bind_Raise by exact Hrun.
Qed.

Lemma session_cons (o : set_iteration) (c : call) (cs : list call)
    (r : RecipeCost) :
  session o (c :: cs) r =
  (fst (perform o c r) :: fst (session o cs (snd (perform o c r))),
   snd (session o cs (snd (perform o c r)))).
Proof.
  simpl. destruct (perform o c r) as [res r']. simpl.
  now destruct (session o cs r').
Qed.

Lemma state_after_cons (o : set_iteration) (c : call) (cs : list call)
    (r : RecipeCost) :
  state_after o (c :: cs) r = state_after o cs (snd (perform o c r)).
Proof.
  unfold state_after. now rewrite session_cons.
Qed.

Lemma state_after_adds (o : set_iteration) (cs : list call) (r : RecipeCost) :
  state_after o cs r = state_after o (filter is_add cs) r.
Proof.
  revert r.
  induction cs as [|c cs IH]; intros r; [reflexivity|].
  simpl filter. destruct (is_add c) eqn:E.
  - rewrite !state_after_cons. apply IH.
  - rewrite state_after_cons, (query_frame o c r E). apply IH.
Qed.

Lemma session_nth (o : set_iteration) (pre : list call) (c : call)
    (post : list call) (r : RecipeCost) :
  nth_error (fst (session o (pre ++ c :: post) r)) (List.length pre)
  = Some (fst (perform o c (state_after o pre r))).
Proof.
  revert r.
  induction pre as [|c0 pre IH]; intros r.
  - simpl app. rewrite session_cons. reflexivity.
  - simpl app. rewrite session_cons, state_after_cons. simpl. apply IH.
Qed.








(** ** The scenario recipe is well formed *)

Lemma two_stores_wf (a b : Q) : dict_wf [("A", a); ("B", b)].
Proof.
  unfold dict_wf, keys. simpl.
  constructor.
  - intros [H|[]]. discriminate H.
  - constructor; [intros []|constructor].
Qed.

Lemma pancakes_inv : recipe_inv pancakes.
Proof.
  apply (build_inv "Pancakes" 4 [flour; milk]); [|reflexivity].
  constructor; [apply two_stores_wf|].
  constructor; [apply two_stores_wf|constructor].
Qed.

Lemma pancakes_all_priced : all_priced pancakes.
Proof.
  unfold all_priced. simpl. repeat constructor; discriminate.
Qed.

(** * The claims *)

(** C1. For a recipe with at least one ingredient, [cheapest_store] returns
    a pair (store, total) in which the store belongs to the union of the
    store identifiers of all price maps, the total is what
    [total_cost_at_store] returns for that store, and no store of the union
    has a smaller total; for a recipe with no ingredient it returns
    ([None], 0). This holds whatever order the set of stores is iterated
    in. The ingredients are those [add_ingredient] lets in: each has a
    price map that is not empty. *)
Theorem cheapest_store_correct (o : set_iteration) (r : RecipeCost) :
  all_priced r ->
  (ingredients r = [] -> cheapest_store o r = (Return (None, 0), r)) /\
  (ingredients r <> [] ->
   exists store total,
     cheapest_store o r = (Return (Some store, total), r) /\
     In store (store_union r) /\
     total_cost_at_store store r = (Return total, r) /\
     forall s, In s (store_union r) ->
       exists t, total_cost_at_store s r = (Return t, r) /\ total <= t).
Proof.
  intros Hinv. split.
  - intros E. rewrite cheapest_store_run. now rewrite E.
  - intros Hne.
    destruct (cheapest_store_min o r Hne (all_priced_store_union r Hinv Hne))
      as [store [total [Hrun [Hin [Htot Hmin]]]]].
    exists store, total. repeat split; try assumption.
    + rewrite total_cost_run. now rewrite Htot.
    + intros s Hs. exists (sum (costs_at s (ingredients r))).
      split; [apply total_cost_run|now apply Hmin].
Qed.

Lemma cheapest_store_correct_witness :
  all_priced pancakes /\
  (ingredients pancakes = [] ->
   cheapest_store first_occurrence_order pancakes
   = (Return (None, 0), pancakes)) /\
  (ingredients pancakes <> [] ->
   exists store total,
     cheapest_store first_occurrence_order pancakes
     = (Return (Some store, total), pancakes) /\
     In store (store_union pancakes) /\
     total_cost_at_store store pancakes = (Return total, pancakes) /\
     forall s, In s (store_union pancakes) ->
       exists t, total_cost_at_store s pancakes = (Return t, pancakes) /\
                 total <= t).
Proof.
  split; [exact pancakes_all_priced|].
  exact (cheapest_store_correct first_occurrence_order pancakes
           pancakes_all_priced).
Defined.

(** C2. [total_cost_at_store S] returns the sum of quantity * price over
    exactly the ingredients whose price map contains [S]; the others are
    left out of the sum, and the result is 0 when there is no ingredient or
    when none is priced at [S]. *)
Theorem total_cost_at_store_sum (r : RecipeCost) (S : string) :
  exists total,
    total_cost_at_store S r = (Return total, r) /\
    total == sum_over_priced S (ingredients r) /\
    (ingredients r = [] -> total = 0) /\
    ((forall ing, In ing (ingredients r) -> ~ priced_at S ing) -> total = 0).
Proof.
  exists (sum (costs_at S (ingredients r))).
  split; [apply total_cost_run|]. split; [apply sum_costs_at|]. split.
  - intros E. now rewrite E.
  - intros H. now rewrite costs_at_none.
Qed.

(** C3. [add_ingredient] raises its validation error exactly when the name
    is empty, or the quantity is <= 0, or the price map is empty, or some
    price of the map is <= 0; when it raises, the recipe is left as it was;
    when it does not, exactly one ingredient with the given fields is
    appended at the end of the sequence and nothing else changes. *)
Theorem add_ingredient_validates (nm : string) (q : Q) (d : dict)
    (r : RecipeCost) :
  (rejected nm q d <->
   exists msg, fst (add_ingredient nm q d r) = Raise (ValueError msg)) /\
  (rejected nm q d -> snd (add_ingredient nm q d r) = r) /\
  (~ rejected nm q d ->
   add_ingredient nm q d r =
   (Return tt,
    mkRecipeCost (name r) (servings r)
                 (ingredients r ++ [mkIngredient nm q d]))).
Proof.
  destruct (add_ingredient_cases nm q d r) as [[Hrej [msg H]]|[Hok H]];
    rewrite H; simpl.
  - split; [|split].
    + split; [intros _; now exists msg|intros _; exact Hrej].
    + reflexivity.
    + intros Hn. contradiction.
  - split; [|split].
    + split; [intros Hr; contradiction|intros [msg Hm]; discriminate].
    + intros Hr. contradiction.
    + reflexivity.
Qed.



(** C5. [ingredient_cost_for_store] returns quantity * price when the
    store is a key of the ingredient's price map and the map gives it that
    price, and returns [None] (neither a number nor a raise) when the store
    is not a key of the map. *)
Theorem ingredient_cost_for_store_spec (ing : Ingredient) (S : string)
    (r : RecipeCost) :
  dict_wf (ing_price_by_store ing) ->
  (forall price, In (S, price) (items (ing_price_by_store ing)) ->
     ingredient_cost_for_store ing S r
     = (Return (Some (ing_quantity ing * price)), r)) /\
  (~ priced_at S ing ->
     ingredient_cost_for_store ing S r = (Return None, r)).
Proof.
  intros Hwf. rewrite ingredient_cost_run. split.
  - intros price Hin. now rewrite (In_get_wf _ _ _ Hwf Hin).
  - intros Hn. apply get_None_keys in Hn. now rewrite Hn.
Qed.

Lemma ingredient_cost_for_store_spec_witness :
  dict_wf (ing_price_by_store flour) /\
  (forall price, In ("B", price) (items (ing_price_by_store flour)) ->
     ingredient_cost_for_store flour "B" pancakes
     = (Return (Some (ing_quantity flour * price)), pancakes)) /\
  (~ priced_at "B" flour ->
     ingredient_cost_for_store flour "B" pancakes = (Return None, pancakes)).
Proof.
  split; [apply two_stores_wf|].
  apply (ingredient_cost_for_store_spec flour "B" pancakes).
  apply two_stores_wf.
Defined.

(** C6. The recipe "Pancakes" with 4 servings, Flour (quantity 2, A: 3,
    B: 2) and Milk (quantity 1, A: 4, B: 5), built through the constructor
    and [add_ingredient]: the total at "A" is 10, the total at "B" is 9,
    [cheapest_store] returns ("B", 9) whatever the set order, and the
    per-serving cost at "B" is 2.25. *)
Theorem pancakes_scenario (o : set_iteration) :
  build "Pancakes" 4 [flour; milk] = Return pancakes /\
  total_cost_at_store "A" pancakes = (Return 10, pancakes) /\
  total_cost_at_store "B" pancakes = (Return 9, pancakes) /\
  cheapest_store o pancakes = (Return (Some "B", 9), pancakes) /\
  exists c, per_serving_cost "B" pancakes = (Return c, pancakes) /\
            c == 2.25.
Proof.
  split; [reflexivity|]. split; [reflexivity|]. split; [reflexivity|].
  split.
  - assert (Hne : ingredients pancakes <> []) by discriminate.
    destruct (cheapest_store_min o pancakes Hne
                (all_priced_store_union _ pancakes_all_priced Hne))
      as [store [total [Hrun [Hin [Htot Hmin]]]]].
    rewrite Hrun.
    assert (HB : total <= 9).
    { apply (Hmin "B"). simpl. tauto. }
    simpl in Hin. destruct Hin as [<-|[<-|[<-|[<-|[]]]]];
      subst total; solve [reflexivity | vm_compute in HB; contradiction].
  - exists (9 # 4). split; reflexivity.
Qed.

(** C7. Summing the cost column of the export over the rows of store [S]
    gives back what [total_cost_at_store S] returns. *)
Theorem csv_round_trip (r : RecipeCost) (S : string) :
  dicts_wf r ->
  total_cost_at_store S r
  = (Return (Csv.cost_column_sum S (Csv.save_to_csv r)), r).
Proof.
  intros Hwf. rewrite total_cost_run.
  unfold cost_column_sum. rewrite data_rows_save.
  unfold export_rows. now rewrite costs_of_store_export.
Qed.

Lemma csv_round_trip_witness :
  dicts_wf pancakes /\
  total_cost_at_store "A" pancakes
  = (Return (Csv.cost_column_sum "A" (Csv.save_to_csv pancakes)), pancakes).
Proof.
  split; [exact (recipe_inv_dicts_wf pancakes pancakes_inv)|].
  exact (csv_round_trip pancakes "A" (recipe_inv_dicts_wf pancakes pancakes_inv)).
Defined.

(** C8. The export is a header line followed by one row for each
    (ingredient, store) pair of each ingredient's price map and nothing
    else, ingredients in insertion order and, within an ingredient, stores
    in the order of its map; in every row the cost is quantity times
    price_per_unit. *)
Theorem save_to_csv_rows (r : RecipeCost) :
  Csv.save_to_csv r
  = Csv.HeaderLine Csv.fieldnames :: map Csv.RowLine (export_rows r) /\
  Forall (fun row => Csv.cost row = Csv.quantity row * Csv.price_per_unit row)
         (export_rows r) /\
  List.length (export_rows r)
  = list_sum (map (fun ing => List.length (items (ing_price_by_store ing)))
                  (ingredients r)).
Proof.
  split; [apply save_to_csv_run|]. unfold export_rows. split.
  - apply Forall_forall. intros row Hin.
    apply in_flat_map in Hin. destruct Hin as [ing [_ Hrow]].
    unfold rows_of_ingredient in Hrow. apply in_map_iff in Hrow.
    destruct Hrow as [sp [<- _]]. reflexivity.
  - induction (ingredients r) as [|ing ings IH]; simpl; [reflexivity|].
    rewrite length_app, IH. unfold rows_of_ingredient.
    now rewrite length_map.
Qed.

(** C9. The four queries leave the recipe as it was (name, servings and
    ingredient sequence), also when [cheapest_store] raises; in a sequence
    of calls that mixes queries and [add_ingredient], the recipe at the end
    is the one the adds alone produce, and each query returns what it
    returns on the recipe produced by the adds made before it. *)
Theorem queries_do_not_modify (o : set_iteration) :
  (forall ing S r, snd (ingredient_cost_for_store ing S r) = r) /\
  (forall S r, snd (total_cost_at_store S r) = r) /\
  (forall S r, snd (per_serving_cost S r) = r) /\
  (forall r, snd (cheapest_store o r) = r) /\
  (forall cs r, state_after o cs r = state_after o (filter is_add cs) r) /\
  (forall pre c post r,
     is_add c = false ->
     nth_error (fst (session o (pre ++ c :: post) r)) (List.length pre)
     = Some (fst (perform o c (state_after o (filter is_add pre) r)))).
Proof.
  repeat split.
  - intros ing S r. now rewrite ingredient_cost_run.
  - intros S r. now rewrite total_cost_run.
  - intros S r. destruct (per_serving_frame S r) as [res H]. now rewrite H.
  - intros r. rewrite cheapest_store_run.
    destruct (ingredients r); [reflexivity|].
    now destruct (min_by_snd _) as [[s t]|e].
  - intros cs r. apply state_after_adds.
  - intros pre c post r _.
    rewrite session_nth. now rewrite <- state_after_adds.
Qed.



(** ** Concrete runs *)

(** Two stores tie at 6: the store returned is the first of the set order. *)
Example tie_first_occurrence :
  cheapest_store first_occurrence_order
    (mkRecipeCost "Tea" 1 [mkIngredient "Leaves" 2 [("A", 3); ("B", 3)]])
  = (Return (Some "A", 6),
     mkRecipeCost "Tea" 1 [mkIngredient "Leaves" 2 [("A", 3); ("B", 3)]]).
Proof. reflexivity. Qed.

Example tie_reversed :
  cheapest_store reversed_order
    (mkRecipeCost "Tea" 1 [mkIngredient "Leaves" 2 [("A", 3); ("B", 3)]])
  = (Return (Some "B", 6),
     mkRecipeCost "Tea" 1 [mkIngredient "Leaves" 2 [("A", 3); ("B", 3)]]).
Proof. reflexivity. Qed.

(** An ingredient priced at "A" only contributes nothing at "B". *)
Example unstocked_store :
  ingredient_cost_for_store (mkIngredient "Salt" 1 [("A", 2)]) "B" pancakes
  = (Return None, pancakes) /\
  total_cost_at_store "B"
    (mkRecipeCost "Soup" 2 [mkIngredient "Salt" 1 [("A", 2)]; milk])
  = (Return 5,
     mkRecipeCost "Soup" 2 [mkIngredient "Salt" 1 [("A", 2)]; milk]).
Proof. split; reflexivity. Qed.

(** A refused ingredient leaves the recipe untouched. *)
Example refused_price :
  add_ingredient "Egg" 3 [("A", 1); ("B", 0)] pancakes
  = (Raise (ValueError "Price for store 'B' must be positive"), pancakes).
Proof. reflexivity. Qed.

(** A negative serving count goes through and gives a negative result. *)
Example negative_servings :
  per_serving_cost "A" (mkRecipeCost "Pancakes" (-2) [flour; milk])
  = (Return (-10 # 2), mkRecipeCost "Pancakes" (-2) [flour; milk]).
Proof. reflexivity. Qed.

(** An object that [add_ingredient] cannot produce: with an empty price
    map as only ingredient, [min] has nothing to choose from. *)
Example cheapest_store_empty_map :
  cheapest_store first_occurrence_order
    (mkRecipeCost "Air" 1 [mkIngredient "Nothing" 1 []])
  = (Raise (ValueError "min() arg is an empty sequence"),
     mkRecipeCost "Air" 1 [mkIngredient "Nothing" 1 []]).
Proof. reflexivity. Qed.

(** The dict the interactive loop builds by assignment has distinct keys. *)
Example setitem_overwrites :
  dict_setitem (dict_setitem (dict_setitem [] "A" 3) "B" 2) "A" 4
  = [("A", 4); ("B", 2)].
Proof. reflexivity. Qed.

(** * Further properties *)

(** ** Helper lemmas *)

Lemma total_of_run (r : RecipeCost) (S : string) :
  total_cost_at_store S r = (Return (total_of r S), r).
Proof.
  unfold total_of. now rewrite total_cost_run.
Qed.

Lemma total_of_costs (r : RecipeCost) (S : string) :
  total_of r S = sum (costs_at S (ingredients r)).
Proof.
  unfold total_of. now rewrite total_cost_run.
Qed.

Lemma sum_app (l1 l2 : list Q) : sum (l1 ++ l2) == sum l1 + sum l2.
Proof.
  induction l1 as [|x l1 IH]; simpl app.
  - unfold sum at 2. simpl. ring.
  - rewrite !sum_cons, IH. ring.
Qed.

Lemma costs_at_app (S : string) (l1 l2 : list Ingredient) :
  costs_at S (l1 ++ l2) = costs_at S l1 ++ costs_at S l2.
Proof.
  unfold costs_at. apply flat_map_app.
Qed.

Lemma sum_nonneg (l : list Q) : Forall (fun c => 0 <= c) l -> 0 <= sum l.
Proof.
  induction 1 as [|x l Hx _ IH].
  - apply Qle_refl.
  - rewrite sum_cons.
    setoid_replace 0 with (0 + 0) by ring.
    now apply Qplus_le_compat.
Qed.

Lemma costs_at_nonneg (S : string) (ings : list Ingredient) :
  Forall ingredient_inv ings -> Forall (fun c => 0 <= c) (costs_at S ings).
Proof.
  induction 1 as [|ing ings Hi _ IH]; simpl; [constructor|].
  destruct (get (ing_price_by_store ing) S) as [p|] eqn:E; simpl;
    [|assumption].
  constructor; [|assumption].
  apply Qmult_le_0_compat; apply Qlt_le_weak.
  - apply (inv_quantity ing Hi).
  - apply (inv_prices ing Hi S p). now apply get_Some_In.
Qed.

Lemma find_first {A : Type} (f : A -> bool) (l1 : list A) (x : A)
    (l2 : list A) :
  (forall y, In y l1 -> f y = false) -> f x = true ->
  find f (l1 ++ x :: l2) = Some x.
Proof.
  induction l1 as [|y l1 IH]; simpl; intros H Hx.
  - now rewrite Hx.
  - rewrite (H y) by now left. apply IH; [|assumption].
    intros z Hz. apply H. now right.
Qed.

Lemma Qle_bool_false (x : Q) : Qle_bool x 0 = false <-> 0 < x.
Proof.
  split.
  - intros H. apply Qnot_le_lt. intros Hle.
    apply Qle_bool_iff in Hle. congruence.
  - intros H. apply not_true_is_false. intros Hle.
    apply Qle_bool_iff in Hle. now apply (Qlt_not_le _ _ H).
Qed.

Lemma acceptedb_spec (nm : string) (q : Q) (d : dict) :
  acceptedb nm q d = true <-> ~ rejected nm q d.
Proof.
  unfold acceptedb, rejected.
  rewrite !andb_true_iff, !negb_true_iff, forallb_forall, Qle_bool_false.
  split.
  - intros [[[Hn Hq] Hd] Hp] [H|[H|[H|[s [p [Hin Hle]]]]]].
    + subst. discriminate.
    + now apply (Qlt_not_le _ _ Hq).
    + subst. discriminate.
    + specialize (Hp (s, p) Hin). simpl in Hp.
      apply negb_true_iff, Qle_bool_false in Hp.
      now apply (Qlt_not_le _ _ Hp).
  - intros H. repeat split.
    + destruct (String.eqb_spec nm ""); [|reflexivity].
      exfalso. apply H. now left.
    + apply Qnot_le_lt. intros Hle. apply H. right. now left.
    + destruct d; [|reflexivity]. exfalso. apply H. right; right. now left.
    + intros [s p] Hin. simpl. apply negb_true_iff, Qle_bool_false.
      apply Qnot_le_lt. intros Hle. apply H. right; right; right.
      now exists s, p.
Qed.

Lemma add_ingredient_accepted (nm : string) (q : Q) (d : dict)
    (r : RecipeCost) :
  add_ingredient nm q d r =
  if acceptedb nm q d
  then (Return tt,
        mkRecipeCost (name r) (servings r)
                     (ingredients r ++ [mkIngredient nm q d]))
  else (fst (add_ingredient nm q d r), r).
Proof.
  destruct (acceptedb nm q d) eqn:E.
  - apply acceptedb_spec in E.
    now destruct (add_ingredient_cases nm q d r) as [[Hr _]|[_ H]].
  - destruct (add_ingredient_cases nm q d r) as [[_ [msg H]]|[Hok _]].
    + now rewrite H.
    + apply acceptedb_spec in Hok. congruence.
Qed.

Lemma perform_ingredients (o : set_iteration) (c : call) (r : RecipeCost) :
  snd (perform o c r) =
  mkRecipeCost (name r) (servings r)
               (ingredients r ++ accepted_ingredients [c]).
Proof.
  destruct (is_add c) eqn:E.
  - destruct c as [nm q d| | | |]; try discriminate.
    unfold accepted_ingredients. simpl.
    pose proof (add_ingredient_accepted nm q d r) as H.
    destruct (acceptedb nm q d).
    + erewrite bind_Return by exact H. reflexivity.
    + destruct (fst (add_ingredient nm q d r)) as [[]|e] eqn:Ef.
      * erewrite bind_Return by exact H. simpl.
        rewrite app_nil_r. now destruct r.
      * erewrite bind_Raise by exact H. simpl.
        rewrite app_nil_r. now destruct r.
  - rewrite query_frame by assumption.
    assert (Hn : accepted_ingredients [c] = []).
    { destruct c; try reflexivity. discriminate. }
    rewrite Hn, app_nil_r. now destruct r.
Qed.

Lemma state_after_ingredients (o : set_iteration) (cs : list call)
    (r : RecipeCost) :
  state_after o cs r =
  mkRecipeCost (name r) (servings r)
               (ingredients r ++ accepted_ingredients cs).
Proof.
  revert r.
  induction cs as [|c cs IH]; intros r.
  - unfold state_after. simpl. rewrite app_nil_r. now destruct r.
  - rewrite state_after_cons, IH, perform_ingredients. simpl.
    rewrite <- app_assoc. f_equal. f_equal.
    unfold accepted_ingredients. simpl. now rewrite app_nil_r.
Qed.

Lemma accepted_ingredients_checked (cs : list call) :
  Forall call_wf cs -> Forall ingredient_checked (accepted_ingredients cs).
Proof.
  induction 1 as [|c cs Hc _ IH]; [constructor|].
  unfold accepted_ingredients. simpl. apply Forall_app. split; [|exact IH].
  destruct c as [nm q d| | | |]; try constructor.
  destruct (acceptedb nm q d) eqn:E; constructor; [|constructor].
  apply acceptedb_spec in E. unfold rejected in E.
  constructor; simpl.
  - intros H. apply E. now left.
  - intros H. apply E. right. now left.
  - intros H. apply E. right; right. now left.
  - intros s p Hin H. apply E. right; right; right. now exists s, p.
  - exact Hc.
Qed.

Lemma min_from_split {A : Type} (best : A * Q) (l : list (A * Q)) :
  exists l1 l2,
    best :: l = l1 ++ min_from best l :: l2 /\
    (forall x, In x l1 -> snd (min_from best l) < snd x) /\
    (forall x, In x l2 -> snd (min_from best l) <= snd x).
Proof.
  revert best.
  induction l as [|x l IH]; intros best.
  - exists [], []. simpl. repeat split; intros y [].
  - assert (Hkeep : snd best <= snd x ->
                    min_from best (x :: l) = min_from best l ->
                    exists l1 l2,
                      best :: x :: l = l1 ++ min_from best (x :: l) :: l2 /\
                      (forall y, In y l1 ->
                                 snd (min_from best (x :: l)) < snd y) /\
                      (forall y, In y l2 ->
                                 snd (min_from best (x :: l)) <= snd y)).
    { intros Hle ->.
      destruct (IH best) as [l1 [l2 [Heq [H1 H2]]]].
      destruct l1 as [|b l1]; simpl in Heq; injection Heq as Hb Hl.
      - exists [], (x :: l). rewrite <- Hb in *. simpl.
        split; [reflexivity|]. split; [intros y []|].
        intros y [<-|Hy]; [assumption|]. apply H2. now rewrite <- Hl.
      - exists (best :: x :: l1), l2. simpl.
        split; [now rewrite Hl at 1|]. split; [|assumption].
        assert (Hb' : snd (min_from best l) < snd best).
        { apply H1. left. now symmetry. }
        intros y [<-|[<-|Hy]].
        + assumption.
        + now apply Qlt_le_trans with (snd best).
        + apply H1. now right. }
    simpl in *. destruct (snd x ?= snd best) eqn:E.
    + apply Hkeep; [|reflexivity].
      apply Qeq_alt in E. rewrite E. apply Qle_refl.
    + destruct (IH x) as [l1 [l2 [Heq [H1 H2]]]].
      exists (best :: l1), l2. simpl. rewrite Heq. repeat split.
      * intros y [<-|Hy]; [|now apply H1].
        apply Qle_lt_trans with (snd x); [apply min_from_le_best|].
        now apply Qlt_alt.
      * assumption.
    + apply Hkeep; [|reflexivity].
      apply Qlt_le_weak. now apply Qgt_alt.
Qed.

Lemma set_order_nil (o : set_iteration) (l : list string) :
  o l = [] <-> l = [].
Proof.
  split; intros H.
  - destruct l as [|x l]; [reflexivity|].
    assert (Hin : In x (o (x :: l))) by (apply iter_In; now left).
    rewrite H in Hin. destruct Hin.
  - destruct (o l) as [|x l'] eqn:E; [reflexivity|].
    assert (Hin : In x l) by (apply (iter_In o); rewrite E; now left).
    subst l. destruct Hin.
Qed.

(** ** The class *)

(** X1. The checks are made in the order name, quantity, map, prices, and
    the error raised is that of the first check that fails; for the prices
    it names the first store, in the order of the map, with a price <= 0. *)
Theorem add_ingredient_first_error (nm : string) (q : Q) (d : dict)
    (r : RecipeCost) :
  (nm = "" ->
   add_ingredient nm q d r
   = (Raise (ValueError "Ingredient name cannot be empty"), r)) /\
  (nm <> "" -> q <= 0 ->
   add_ingredient nm q d r
   = (Raise (ValueError "Quantity must be positive"), r)) /\
  (nm <> "" -> 0 < q -> d = [] ->
   add_ingredient nm q d r
   = (Raise (ValueError "price_by_store must be a non-empty dictionary"),
      r)) /\
  (forall d1 s p d2,
     nm <> "" -> 0 < q -> d = d1 ++ (s, p) :: d2 ->
     (forall s' p', In (s', p') d1 -> 0 < p') -> p <= 0 ->
     add_ingredient nm q d r
     = (Raise (ValueError ("Price for store '" ++ s
                           ++ "' must be positive")%string), r)).
Proof.
  rewrite add_ingredient_run. repeat split.
  - intros ->. reflexivity.
  - intros Hn Hq. apply String.eqb_neq in Hn. rewrite Hn.
    apply Qle_bool_iff in Hq. now rewrite Hq.
  - intros Hn Hq ->. apply String.eqb_neq in Hn. rewrite Hn.
    apply Qle_bool_false in Hq. now rewrite Hq.
  - intros d1 s p d2 Hn Hq -> Hd1 Hp.
    apply String.eqb_neq in Hn. rewrite Hn.
    apply Qle_bool_false in Hq. rewrite Hq.
    unfold items. rewrite find_first.
    + now destruct d1.
    + intros [s' p'] Hin. simpl. apply Qle_bool_false. now apply (Hd1 s').
    + simpl. now apply Qle_bool_iff.
Qed.

(** X2. An accepted ingredient raises the total at a store by its
    quantity times its price there, and leaves the total at a store it is
    not priced at as it was. *)
Theorem add_ingredient_total (nm : string) (q : Q) (d : dict)
    (r : RecipeCost) (S : string) :
  ~ rejected nm q d ->
  total_of (snd (add_ingredient nm q d r)) S
  == total_of r S + match get d S with
                    | Some p => q * p
                    | None => 0
                    end.
Proof.
  intros Hok.
  destruct (add_ingredient_cases nm q d r) as [[Hr _]|[_ H]];
    [contradiction|].
  rewrite H, !total_of_costs. simpl.
  rewrite costs_at_app, sum_app. simpl.
  destruct (get d S) as [p|]; simpl.
  - rewrite sum_cons. unfold sum at 2. simpl. ring.
  - reflexivity.
Qed.

Lemma add_ingredient_total_witness :
  ~ rejected "Egg" 3 [("A", 1)] /\
  total_of (snd (add_ingredient "Egg" 3 [("A", 1)] pancakes)) "A"
  == total_of pancakes "A" + match get [("A", 1)] "A" with
                             | Some p => 3 * p
                             | None => 0
                             end.
Proof.
  assert (H : ~ rejected "Egg" 3 [("A", 1)])
    by (apply acceptedb_spec; reflexivity).
  split; [exact H|].
  exact (add_ingredient_total "Egg" 3 [("A", 1)] pancakes "A" H).
Defined.

(** X3. On a recipe whose ingredients satisfy the invariant, the total at
    any store is never negative, and it is positive only if some ingredient
    is priced at that store. *)
Theorem total_cost_sign (r : RecipeCost) (S : string) :
  recipe_inv r ->
  0 <= total_of r S /\
  (0 < total_of r S ->
   exists ing, In ing (ingredients r) /\ priced_at S ing).
Proof.
  intros Hinv. rewrite total_of_costs.
  split; [apply sum_nonneg; now apply costs_at_nonneg|].
  intros Hlt.
  destruct (existsb (priced_atb S) (ingredients r)) eqn:E.
  - apply existsb_exists in E. destruct E as [ing [Hin Hp]].
    exists ing. split; [assumption|now apply priced_atb_spec].
  - exfalso. rewrite costs_at_none in Hlt.
    + now apply (Qlt_irrefl 0).
    + intros ing Hin Hp. apply priced_atb_spec in Hp.
      assert (Ht : existsb (priced_atb S) (ingredients r) = true).
      { apply existsb_exists. now exists ing. }
      congruence.
Qed.

Lemma total_cost_sign_witness :
  recipe_inv pancakes /\
  0 <= total_of pancakes "A" /\
  (0 < total_of pancakes "A" ->
   exists ing, In ing (ingredients pancakes) /\ priced_at "A" ing).
Proof.
  split; [exact pancakes_inv|].
  exact (total_cost_sign pancakes "A" pancakes_inv).
Defined.

(** X4. [cheapest_store] raises exactly on a recipe that has ingredients
    but no store in any price map; the error is the one [min] raises on an
    empty sequence, and the recipe is left as it was. *)
Theorem cheapest_store_raises (o : set_iteration) (r : RecipeCost) :
  ((exists e, fst (cheapest_store o r) = Raise e) <->
   ingredients r <> [] /\ store_union r = []) /\
  (ingredients r <> [] -> store_union r = [] ->
   cheapest_store o r
   = (Raise (ValueError "min() arg is an empty sequence"), r)).
Proof.
  assert (Hraise : ingredients r <> [] -> store_union r = [] ->
                   cheapest_store o r
                   = (Raise (ValueError "min() arg is an empty sequence"), r)).
  { intros Hne Hun. rewrite cheapest_store_run_nonempty by assumption.
    rewrite Hun. now rewrite (proj2 (set_order_nil o []) eq_refl). }
  split; [|exact Hraise]. split.
  - intros [e He].
    destruct (ingredients r) as [|i l] eqn:Ei.
    + rewrite cheapest_store_run, Ei in He. discriminate.
    + split; [discriminate|].
      destruct (store_union r) as [|s u] eqn:Eu; [reflexivity|].
      assert (Hne : ingredients r <> []) by (rewrite Ei; discriminate).
      assert (Hun : store_union r <> []) by (rewrite Eu; discriminate).
      destruct (cheapest_store_min o r Hne Hun) as [s' [t [Hrun _]]].
      rewrite Hrun in He. discriminate.
  - intros [Hne Hun]. rewrite (Hraise Hne Hun). simpl. eauto.
Qed.

(** X5. When one store of the union has a total strictly below that of
    every other store, [cheapest_store] returns that store and its total,
    whatever the order in which the set of stores is iterated. *)
Theorem cheapest_store_unique_min (o : set_iteration) (r : RecipeCost)
    (s : string) :
  In s (store_union r) ->
  (forall s', In s' (store_union r) -> s' <> s ->
              total_of r s < total_of r s') ->
  cheapest_store o r = (Return (Some s, total_of r s), r).
Proof.
  intros Hin Hlt.
  assert (Hun : store_union r <> []) by (intros E; rewrite E in Hin; destruct Hin).
  assert (Hne : ingredients r <> []).
  { intros E. unfold store_union in Hin. rewrite E in Hin. destruct Hin. }
  destruct (cheapest_store_min o r Hne Hun) as [s' [t [Hrun [Hs' [Ht Hmin]]]]].
  rewrite Hrun.
  destruct (String.eqb_spec s' s) as [->|Hdiff].
  - now rewrite total_of_costs, Ht.
  - exfalso. specialize (Hlt s' Hs' Hdiff). specialize (Hmin s Hin).
    rewrite !total_of_costs in Hlt. rewrite <- Ht in Hlt.
    now apply (Qlt_not_le _ _ Hlt).
Qed.

Lemma cheapest_store_unique_min_witness :
  In "B" (store_union pancakes) /\
  (forall s', In s' (store_union pancakes) -> s' <> "B" ->
              total_of pancakes "B" < total_of pancakes s') /\
  cheapest_store reversed_order pancakes
  = (Return (Some "B", total_of pancakes "B"), pancakes).
Proof.
  assert (H1 : In "B" (store_union pancakes)) by (simpl; tauto).
  assert (H2 : forall s', In s' (store_union pancakes) -> s' <> "B" ->
                          total_of pancakes "B" < total_of pancakes s').
  { intros s' Hs' Hd. simpl in Hs'.
    destruct Hs' as [<-|[<-|[<-|[<-|[]]]]];
      solve [reflexivity | contradiction]. }
  split; [exact H1|]. split; [exact H2|].
  exact (cheapest_store_unique_min reversed_order pancakes "B" H1 H2).
Defined.

(** X6. The store [cheapest_store] returns is the first one, in the
    iteration order of the set of stores, that reaches the minimum: every
    store iterated before it has a strictly larger total. *)
Theorem cheapest_store_first_minimum (o : set_iteration) (r : RecipeCost)
    (s : string) (t : Q) :
  cheapest_store o r = (Return (Some s, t), r) ->
  exists before after,
    o (store_union r) = before ++ s :: after /\
    t = total_of r s /\
    (forall s', In s' before -> t < total_of r s') /\
    (forall s', In s' after -> t <= total_of r s').
Proof.
  intros Hrun.
  destruct (ingredients r) as [|i l] eqn:Ei.
  { rewrite cheapest_store_run, Ei in Hrun. discriminate. }
  assert (Hne : ingredients r <> []) by (rewrite Ei; discriminate).
  rewrite cheapest_store_run_nonempty in Hrun by assumption.
  unfold store_costs_of in Hrun.
  destruct (o (store_union r)) as [|s0 ss]; [discriminate|].
  simpl in Hrun.
  set (f := fun s => (s, sum (costs_at s (ingredients r)))) in *.
  destruct (min_from_split (f s0) (map f ss)) as [l1 [l2 [Heq [H1 H2]]]].
  change (s0, sum (costs_at s0 (ingredients r))) with (f s0) in Hrun.
  destruct (min_from (f s0) (map f ss)) as [s' t'] eqn:Em.
  injection Hrun as -> ->.
  change (f s0 :: map f ss) with (map f (s0 :: ss)) in Heq.
  apply map_eq_app in Heq. destruct Heq as [b [rest [Hsplit [Hb Hrest]]]].
  apply map_eq_cons in Hrest. destruct Hrest as [s1 [a [-> [Hs1 Ha]]]].
  unfold f in Hs1. injection Hs1 as -> Ht.
  exists b, a. split; [assumption|]. split.
  - now rewrite total_of_costs.
  - split.
    + intros s' Hs'. rewrite total_of_costs.
      apply (H1 (f s')). rewrite <- Hb. now apply in_map.
    + intros s' Hs'. rewrite total_of_costs.
      apply (H2 (f s')). rewrite <- Ha. now apply in_map.
Qed.

Lemma cheapest_store_first_minimum_witness :
  cheapest_store first_occurrence_order pancakes
  = (Return (Some "B", 9), pancakes) /\
  exists before after,
    first_occurrence_order (store_union pancakes) = before ++ "B" :: after /\
    9 = total_of pancakes "B" /\
    (forall s', In s' before -> 9 < total_of pancakes s') /\
    (forall s', In s' after -> 9 <= total_of pancakes s').
Proof.
  assert (H : cheapest_store first_occurrence_order pancakes
              = (Return (Some "B", 9), pancakes)) by reflexivity.
  split; [exact H|].
  exact (cheapest_store_first_minimum first_occurrence_order pancakes "B" 9 H).
Defined.

(** X7. The export is append-only: after an accepted ingredient the file
    is the former file followed by the rows of the new ingredient, one per
    store of its price map. *)
Theorem save_to_csv_append (nm : string) (q : Q) (d : dict)
    (r : RecipeCost) :
  ~ rejected nm q d ->
  Csv.save_to_csv (snd (add_ingredient nm q d r))
  = Csv.save_to_csv r
    ++ map Csv.RowLine (rows_of_ingredient (mkIngredient nm q d)).
Proof.
  intros Hok.
  destruct (add_ingredient_cases nm q d r) as [[Hr _]|[_ H]];
    [contradiction|].
  rewrite H, !save_to_csv_run. unfold export_rows. simpl.
  rewrite flat_map_app, map_app. simpl. now rewrite app_nil_r.
Qed.

Lemma save_to_csv_append_witness :
  ~ rejected "Egg" 3 [("A", 1)] /\
  Csv.save_to_csv (snd (add_ingredient "Egg" 3 [("A", 1)] pancakes))
  = Csv.save_to_csv pancakes
    ++ map Csv.RowLine
         (rows_of_ingredient (mkIngredient "Egg" 3 [("A", 1)])).
Proof.
  assert (H : ~ rejected "Egg" 3 [("A", 1)])
    by (apply acceptedb_spec; reflexivity).
  split; [exact H|].
  exact (save_to_csv_append "Egg" 3 [("A", 1)] pancakes H).
Defined.

(** X8. Whatever calls are made on a recipe, in whatever order, its name
    and serving count stay the same and its ingredients are the former
    ones followed by the ingredients of the accepted [add_ingredient]
    calls, in call order: nothing is removed, reordered or changed. *)
Theorem session_only_appends (o : set_iteration) (cs : list call)
    (r : RecipeCost) :
  name (state_after o cs r) = name r /\
  servings (state_after o cs r) = servings r /\
  ingredients (state_after o cs r)
  = ingredients r ++ accepted_ingredients cs.
Proof.
  rewrite state_after_ingredients. repeat split.
Qed.

(** X9. What the tests of the validator establish is kept by any sequence
    of calls whose price maps are dicts: if every ingredient of a recipe
    has a non-empty name, a quantity and prices for which the test [<= 0]
    is false, and a non-empty price map with distinct keys, the same holds
    of the recipe after the calls. *)
Theorem session_keeps_invariant (o : set_iteration) (cs : list call)
    (r : RecipeCost) :
  Forall call_wf cs -> recipe_checked r ->
  recipe_checked (state_after o cs r).
Proof.
  intros Hcs Hinv. rewrite state_after_ingredients.
  unfold recipe_checked. simpl. apply Forall_app. split; [assumption|].
  now apply accepted_ingredients_checked.
Qed.

Lemma session_keeps_invariant_witness :
  Forall call_wf [AddIngredient "Egg" 3 [("A", 1)]; CheapestStore;
                  AddIngredient "" 1 [("A", 1)]] /\
  recipe_checked (mkRecipeCost "Pancakes" 4 []) /\
  recipe_checked
    (state_after first_occurrence_order
       [AddIngredient "Egg" 3 [("A", 1)]; CheapestStore;
        AddIngredient "" 1 [("A", 1)]] (mkRecipeCost "Pancakes" 4 [])).
Proof.
  assert (Hd : dict_wf [("A", 1)]).
  { unfold dict_wf, keys. simpl. constructor; [intros []|constructor]. }
  assert (H : Forall call_wf [AddIngredient "Egg" 3 [("A", 1)]; CheapestStore;
                              AddIngredient "" 1 [("A", 1)]]).
  { constructor; [exact Hd|]. constructor; [exact I|].
    constructor; [exact Hd|constructor]. }
  assert (H0 : recipe_checked (mkRecipeCost "Pancakes" 4 []))
    by constructor.
  split; [exact H|]. split; [exact H0|].
  exact (session_keeps_invariant first_occurrence_order _
           (mkRecipeCost "Pancakes" 4 []) H H0).
Defined.

(** ** The summary and the chart *)

Lemma per_serving_arg_Some (s : string) (r : RecipeCost) :
  per_serving_cost_arg (Some s) r = per_serving_cost s r.
Proof. reflexivity. Qed.

Lemma per_serving_arg_None (r : RecipeCost) :
  per_serving_cost_arg None r
  = (Return (if Z.eqb (servings r) 0 then 0 else 0 / inject_Z (servings r)),
     r).
Proof.
  rewrite (per_serving_value_run None _ r (total_value_None r)).
  destruct (Z.eqb_spec (servings r) 0) as [E|E]; [reflexivity|].
  now rewrite truediv_int.
Qed.

Lemma per_serving_arg_frame (k : option string) (r : RecipeCost) :
  exists res, per_serving_cost_arg k r = (res, r).
Proof.
  destruct k as [s|].
  - rewrite per_serving_arg_Some. apply per_serving_frame.
  - rewrite per_serving_arg_None. eauto.
Qed.

Lemma save_summary_run (o : set_iteration) (r : RecipeCost) :
  Json.save_summary_to_json o r =
  match cheapest_store o r with
  | (Return (store, total), _) =>
      match per_serving_cost_arg store r with
      | (Return v, _) => (Return (summary_of r store total v), r)
      | (Raise e, _) => (Raise e, r)
      end
  | (Raise e, _) => (Raise e, r)
  end.
Proof.
  unfold Json.save_summary_to_json.
  assert (Hframe : snd (cheapest_store o r) = r).
  { rewrite cheapest_store_run. destruct (ingredients r); [reflexivity|].
    now destruct (min_by_snd _) as [[s t]|e]. }
  destruct (cheapest_store o r) as [[[store total]|e] r'] eqn:Ec;
    simpl in Hframe; subst r'.
  - erewrite bind_Return by exact Ec. cbv beta iota.
    erewrite bind_Return by reflexivity.
    erewrite bind_Return by reflexivity.
    destruct (per_serving_arg_frame store r) as [[v|e] Hv]; rewrite Hv.
    + erewrite bind_Return by exact Hv. reflexivity.
    + now erewrite bind_Raise by exact Hv.
  - now erewrite bind_Raise by exact Ec.
Qed.

Lemma chart_loop_run (k : option string) (ings : list Ingredient)
    (acc : list Q) (r : RecipeCost) :
  for_acc ings acc
    (fun costs ing =>
       c <- ingredient_cost_for_store_arg ing k ;;
       let c := match c with
                | None => 0
                | Some c => c
                end in
       ret (costs ++ [c])) r
  = (Return (acc ++ map (bar_height_arg k) ings), r).
Proof.
  revert acc.
  induction ings as [|ing ings IH]; intros acc; simpl.
  - now rewrite app_nil_r.
  - assert (Hstep :
      (c <- ingredient_cost_for_store_arg ing k ;;
       let c := match c with
                | None => 0
                | Some c => c
                end in
       ret (acc ++ [c])) r
      = (Return (acc ++ [bar_height_arg k ing]), r)).
    { unfold ingredient_cost_for_store_arg, bar_height_arg.
      destruct (get_arg (ing_price_by_store ing) k);
        now erewrite bind_Return by reflexivity. }
    erewrite bind_Return by exact Hstep.
    rewrite IH. now rewrite <- app_assoc.
Qed.

Lemma chart_costs_run (k : option string) (r : RecipeCost) :
  Plot.chart_costs k r
  = (Return (map (bar_height_arg k) (ingredients r)), r).
Proof.
  unfold Plot.chart_costs. erewrite bind_Return by reflexivity.
  now rewrite chart_loop_run.
Qed.

Lemma sum_bar_heights (S : string) (ings : list Ingredient) :
  sum (map (bar_height S) ings) == sum (costs_at S ings).
Proof.
  induction ings as [|ing ings IH]; simpl; [reflexivity|].
  rewrite sum_cons, IH. unfold bar_height.
  destruct (get (ing_price_by_store ing) S) as [p|]; simpl.
  - now rewrite sum_cons.
  - ring.
Qed.

Lemma save_summary_nonempty (o : set_iteration) (r : RecipeCost) :
  all_priced r -> ingredients r <> [] ->
  exists store total,
    cheapest_store o r = (Return (Some store, total), r) /\
    In store (store_union r) /\
    Json.save_summary_to_json o r =
    match per_serving_cost store r with
    | (Return v, _) => (Return (summary_of r (Some store) total v), r)
    | (Raise e, _) => (Raise e, r)
    end.
Proof.
  intros Hp Hne.
  destruct (cheapest_store_min o r Hne (all_priced_store_union r Hp Hne))
    as [store [total [Hrun [Hin _]]]].
  exists store, total. split; [exact Hrun|]. split; [exact Hin|].
  now rewrite save_summary_run, Hrun, per_serving_arg_Some.
Qed.





(** X12. [save_summary_to_json] never changes the recipe, and when
    [cheapest_store] raises it raises the same error: no summary is
    produced then. *)
Theorem save_summary_raises (o : set_iteration) (r : RecipeCost) :
  snd (Json.save_summary_to_json o r) = r /\
  forall e,
    fst (cheapest_store o r) = Raise e ->
    fst (Json.save_summary_to_json o r) = Raise e.
Proof.
  rewrite save_summary_run.
  destruct (cheapest_store o r) as [[[store total]|e'] r'].
  - destruct (per_serving_arg_frame store r) as [[v|e0] Hv]; rewrite Hv;
      simpl; (split; [reflexivity|]); intros e; discriminate.
  - simpl. split; [reflexivity|]. now intros e [= ->].
Qed.

(** X13. For a store name, [plot_ingredient_costs] draws one bar per
    ingredient, in insertion order, of height quantity times price, or 0
    for an ingredient not priced at the store; the heights add up to the
    total at that store, and the recipe is unchanged. *)
Theorem plot_bars (s : string) (r : RecipeCost) :
  Plot.plot_ingredient_costs (Some s) r
  = (Plot.Done tt, r,
     [Plot.Bar (map ing_name (ingredients r))
               (map (bar_height s) (ingredients r)) "skyblue";
      Plot.Xlabel "Ingredients";
      Plot.Ylabel ("Cost at " ++ s)%string;
      Plot.Title ("Ingredient Costs for " ++ name r ++ " at " ++ s)%string;
      Plot.Show]) /\
  sum (map (bar_height s) (ingredients r)) == total_of r s.
Proof.
  split.
  - unfold Plot.plot_ingredient_costs. rewrite chart_costs_run. reflexivity.
  - rewrite total_of_costs. apply sum_bar_heights.
Qed.

(** X14. With [None] as store, [plot_ingredient_costs] draws a bar of
    height 0 for every ingredient and the first axis label, then fails with
    a [TypeError] on building the second label; nothing else is drawn. *)
Theorem plot_without_store (r : RecipeCost) :
  Plot.plot_ingredient_costs None r
  = (Plot.Uncaught Plot.TypeError, r,
     [Plot.Bar (map ing_name (ingredients r))
               (map (fun _ => 0) (ingredients r)) "skyblue";
      Plot.Xlabel "Ingredients"]).
Proof.
  unfold Plot.plot_ingredient_costs. rewrite chart_costs_run. reflexivity.
Qed.

(** ** The interactive script *)

Import Demo Plot.

Lemma dict_setitem_get_same (d : dict) (k : string) (v : Q) :
  get (dict_setitem d k v) k = Some v.
Proof.
  induction d as [|[k' v'] d IH]; simpl.
  - now rewrite String.eqb_refl.
  - destruct (String.eqb k' k) eqn:E; simpl; rewrite E; [reflexivity|exact IH].
Qed.

Lemma dict_setitem_get_other (d : dict) (k k' : string) (v : Q) :
  k' <> k -> get (dict_setitem d k v) k' = get d k'.
Proof.
  intros Hne.
  induction d as [|[k0 v0] d IH]; simpl.
  - destruct (String.eqb_spec k k'); [congruence|reflexivity].
  - destruct (String.eqb_spec k0 k) as [->|Hk]; simpl.
    + destruct (String.eqb_spec k k'); [congruence|reflexivity].
    + now rewrite IH.
Qed.

Lemma add_ingredient_shape (nm : string) (q : Q) (d : dict)
    (r : RecipeCost) :
  dict_wf d -> recipe_shape r -> recipe_shape (snd (add_ingredient nm q d r)).
Proof.
  intros Hwf Hinv.
  destruct (add_ingredient_cases nm q d r) as [[_ [msg ->]]|[Hok ->]];
    [assumption|].
  unfold recipe_shape. simpl. apply Forall_app. split; [assumption|].
  constructor; [|constructor].
  unfold rejected in Hok. constructor; simpl.
  - intros E. apply Hok. now left.
  - intros E. apply Hok. right; right. now left.
  - assumption.
Qed.

Lemma recipe_shape_all_priced (r : RecipeCost) : recipe_shape r -> all_priced r.
Proof.
  unfold recipe_shape, all_priced. apply Forall_impl.
  intros ing H. apply (shape_nonempty ing H).
Qed.

Lemma recipe_shape_dicts_wf (r : RecipeCost) : recipe_shape r -> dicts_wf r.
Proof.
  unfold recipe_shape, dicts_wf. apply Forall_impl.
  intros ing H. apply (shape_keys ing H).
Qed.

Lemma step_goto (b : builtins) (pc : point) (recipe : RecipeCost)
    (line : string) (pc' : point) (recipe' : RecipeCost)
    (printed : list effect) :
  recipe_shape recipe -> point_wf pc ->
  step b pc recipe line = Goto pc' recipe' printed ->
  recipe_shape recipe' /\ point_wf pc' /\
  name recipe' = name recipe /\ servings recipe' = servings recipe /\
  Forall is_console printed.
Proof.
  intros Hinv Hpc.
  destruct pc as [| |nm|nm q d|nm q d st]; simpl.
  - destruct (negb _); [discriminate|]. intros [= <- <- <-].
    repeat split; auto.
  - intros [= <- <- <-]. repeat split; auto.
  - destruct (float b line); [|discriminate]. intros [= <- <- <-].
    repeat split; auto. simpl. constructor.
  - destruct (String.eqb _ "done").
    + pose proof (add_ingredient_shape nm q d recipe Hpc Hinv) as Hi.
      destruct (add_ingredient_cases nm q d recipe) as [[_ [msg H]]|[_ H]];
        rewrite H in *; intros [= <- <- <-]; simpl in *.
      * repeat split; auto. constructor; [exact I|constructor].
      * repeat split; auto.
    + intros [= <- <- <-]. repeat split; auto.
  - destruct (float b line); [|discriminate]. intros [= <- <- <-].
    repeat split; auto. simpl. now apply dict_setitem_wf.
Qed.

Lemma interact_done (b : builtins) (inputs : list string) :
  forall pc recipe log r log',
    recipe_shape recipe -> point_wf pc ->
    interact b pc recipe inputs log = (Done r, log') ->
    recipe_shape r /\ name r = name recipe /\ servings r = servings recipe /\
    exists extra, log' = log ++ extra /\ Forall is_console extra.
Proof.
  induction inputs as [|line inputs IH];
    intros pc recipe log r log' Hinv Hpc; simpl; [discriminate|].
  destruct (step b pc recipe line) as [pc' recipe' printed| |e] eqn:Es.
  - intros Hrun.
    destruct (step_goto b pc recipe line pc' recipe' printed Hinv Hpc Es)
      as [Hinv' [Hpc' [Hn [Hs Hpr]]]].
    destruct (IH _ _ _ _ _ Hinv' Hpc' Hrun) as [Hr [Hn' [Hs' [extra [-> He]]]]].
    split; [assumption|]. split; [congruence|]. split; [congruence|].
    exists ([Prompt (prompt_of pc)] ++ printed ++ extra). split.
    + now rewrite <- !app_assoc.
    + apply Forall_app. split; [repeat constructor|].
      apply Forall_app. now split.
  - intros [= <- <-]. repeat split; auto.
    exists [Prompt (prompt_of pc)]. split; [reflexivity|].
    repeat constructor.
  - discriminate.
Qed.

Lemma report_run (o : set_iteration) (r : RecipeCost) :
  all_priced r -> ingredients r <> [] ->
  exists store total,
    cheapest_store o r = (Return (Some store, total), r) /\
    report o r =
    match per_serving_cost store r with
    | (Return per_serving, _) =>
        (Done tt, report_effects r store total per_serving)
    | (Raise e, _) => (Uncaught (Exn e), report_prefix r store total)
    end.
Proof.
  intros Hp Hne.
  destruct (save_summary_nonempty o r Hp Hne)
    as [store [total [Hc [_ Hsum]]]].
  exists store, total. split; [assumption|].
  unfold report.
  destruct (ingredients r) as [|i l] eqn:Ei; [contradiction|].
  rewrite Hc, per_serving_arg_Some.
  destruct (per_serving_frame store r) as [[v|e] Hv]; rewrite Hv;
    [|reflexivity].
  rewrite Hv in Hsum. rewrite Hsum.
  unfold plot_ingredient_costs. rewrite chart_costs_run.
  unfold report_effects. rewrite Ei. reflexivity.
Qed.

(** X15. Whatever is typed, every ingredient of the recipe the
    question-and-answer loop ends with has a non-empty name and a non-empty
    price map with distinct keys, and the recipe carries the name and
    serving count it started with: what the loop stores went through
    [add_ingredient], and a price map is built by assignment only. *)
Theorem demo_loop_invariant (b : builtins) (pc : point) (recipe : RecipeCost)
    (inputs : list string) (log : list effect) (r : RecipeCost)
    (log' : list effect) :
  recipe_shape recipe -> point_wf pc ->
  interact b pc recipe inputs log = (Done r, log') ->
  recipe_shape r /\ all_priced r /\ dicts_wf r /\
  name r = name recipe /\ servings r = servings recipe.
Proof.
  intros Hinv Hpc Hrun.
  destruct (interact_done b inputs pc recipe log r log' Hinv Hpc Hrun)
    as [Hr [Hn [Hs _]]].
  split; [assumption|]. split; [now apply recipe_shape_all_priced|].
  split; [now apply recipe_shape_dicts_wf|]. now split.
Qed.

Lemma demo_loop_invariant_witness :
  recipe_shape (mkRecipeCost "Pancakes" 4 []) /\
  point_wf AskAddMore /\
  interact plain AskAddMore (mkRecipeCost "Pancakes" 4 []) pancakes_lines []
  = (Done pancakes,
     snd (interact plain AskAddMore (mkRecipeCost "Pancakes" 4 [])
            pancakes_lines [])) /\
  recipe_shape pancakes /\ all_priced pancakes /\ dicts_wf pancakes /\
  name pancakes = name (mkRecipeCost "Pancakes" 4 []) /\
  servings pancakes = servings (mkRecipeCost "Pancakes" 4 []).
Proof.
  assert (H0 : recipe_shape (mkRecipeCost "Pancakes" 4 [])) by constructor.
  assert (H1 : point_wf AskAddMore) by exact I.
  assert (H2 : interact plain AskAddMore (mkRecipeCost "Pancakes" 4 [])
                 pancakes_lines []
               = (Done pancakes,
                  snd (interact plain AskAddMore
                         (mkRecipeCost "Pancakes" 4 []) pancakes_lines [])))
    by reflexivity.
  split; [exact H0|]. split; [exact H1|]. split; [exact H2|].
  exact (demo_loop_invariant plain AskAddMore (mkRecipeCost "Pancakes" 4 [])
           pancakes_lines [] pancakes _ H0 H1 H2).
Defined.

(** X16. Whatever is typed, [cheapest_store] does not raise on the recipe
    the question-and-answer loop ends with: no stored ingredient has an
    empty price map, so [min] is never given an empty sequence. When the
    recipe has an ingredient, the store returned is one of its stores. *)
Theorem demo_min_never_empty (b : builtins) (o : set_iteration) (pc : point)
    (recipe : RecipeCost) (inputs : list string) (log : list effect)
    (r : RecipeCost) (log' : list effect) :
  recipe_shape recipe -> point_wf pc ->
  interact b pc recipe inputs log = (Done r, log') ->
  exists store total,
    cheapest_store o r = (Return (store, total), r) /\
    (ingredients r <> [] ->
     exists s, store = Some s /\ In s (store_union r)).
Proof.
  intros Hinv Hpc Hrun.
  destruct (interact_done b inputs pc recipe log r log' Hinv Hpc Hrun)
    as [Hr _].
  destruct (ingredients r) as [|i l] eqn:Ei.
  - exists None, 0. split; [|intros H; contradiction].
    rewrite cheapest_store_run. now rewrite Ei.
  - assert (Hne : ingredients r <> []) by (rewrite Ei; discriminate).
    destruct (cheapest_store_min o r Hne
                (all_priced_store_union r (recipe_shape_all_priced r Hr) Hne))
      as [s [t [Hc [Hin _]]]].
    exists (Some s), t. split; [assumption|]. intros _. now exists s.
Qed.

Lemma demo_min_never_empty_witness :
  recipe_shape (mkRecipeCost "Pancakes" 4 []) /\
  point_wf AskAddMore /\
  interact plain AskAddMore (mkRecipeCost "Pancakes" 4 []) pancakes_lines []
  = (Done pancakes,
     snd (interact plain AskAddMore (mkRecipeCost "Pancakes" 4 [])
            pancakes_lines [])) /\
  exists store total,
    cheapest_store reversed_order pancakes = (Return (store, total), pancakes)
    /\
    (ingredients pancakes <> [] ->
     exists s, store = Some s /\ In s (store_union pancakes)).
Proof.
  assert (H0 : recipe_shape (mkRecipeCost "Pancakes" 4 [])) by constructor.
  assert (H1 : point_wf AskAddMore) by exact I.
  assert (H2 : interact plain AskAddMore (mkRecipeCost "Pancakes" 4 [])
                 pancakes_lines []
               = (Done pancakes,
                  snd (interact plain AskAddMore
                         (mkRecipeCost "Pancakes" 4 []) pancakes_lines [])))
    by reflexivity.
  split; [exact H0|]. split; [exact H1|]. split; [exact H2|].
  exact (demo_min_never_empty plain reversed_order AskAddMore
           (mkRecipeCost "Pancakes" 4 []) pancakes_lines [] pancakes _
           H0 H1 H2).
Defined.

(** X17. When the script ends normally, everything before the report is
    console text, and either it reports that there is no ingredient and
    writes no file, or it prints, writes and draws the report of the recipe
    the loop ended with, which has an ingredient: the store and total
    printed and written in the summary are those [cheapest_store] returns,
    and the per-serving cost printed and written is the one
    [per_serving_cost] returns for that store. *)
Theorem demo_outputs_agree (b : builtins) (o : set_iteration)
    (inputs : list string) (log : list effect) :
  run_recipe_cost_demo b o inputs = (Done tt, log) ->
  exists console,
    Forall is_console console /\
    (log = console
           ++ [Print [PStr "No ingredients added, nothing to calculate."]]
     \/
     exists r store total per_serving,
       recipe_shape r /\ ingredients r <> [] /\
       log = console ++ report_effects r store total per_serving /\
       cheapest_store o r = (Return (Some store, total), r) /\
       per_serving_cost store r = (Return per_serving, r)).
Proof.
  unfold run_recipe_cost_demo.
  destruct inputs as [|nm [|line inputs]]; try discriminate.
  destruct (int b line) as [sv|x]; [|discriminate].
  unfold init.
  set (log0 := [Print [PStr "=== Recipe Ingredient Cost Analyzer ==="];
                Prompt "Enter recipe name: "]
               ++ [Prompt "Enter number of servings: "]).
  destruct (interact b AskAddMore (mkRecipeCost nm sv []) inputs log0)
    as [[r|e'] log'] eqn:Erun; [|discriminate].
  assert (Hinv : recipe_shape (mkRecipeCost nm sv [])) by constructor.
  destruct (interact_done b inputs AskAddMore _ _ _ _ Hinv I Erun)
    as [Hr [_ [_ [extra [-> Hextra]]]]].
  assert (Hcons : Forall is_console (log0 ++ extra)).
  { apply Forall_app. split; [repeat constructor|assumption]. }
  intros Hrun. exists (log0 ++ extra). split; [assumption|].
  destruct (ingredients r) as [|i l] eqn:Eing.
  - unfold report in Hrun. rewrite Eing in Hrun.
    injection Hrun as <-. now left.
  - assert (Hne : ingredients r <> []) by (rewrite Eing; discriminate).
    destruct (report_run o r (recipe_shape_all_priced r Hr) Hne)
      as [s [t [Hc Hrep]]].
    rewrite Hrep in Hrun.
    destruct (per_serving_frame s r) as [[psc|e] Hps]; rewrite Hps in Hrun;
      [|discriminate].
    injection Hrun as <-. right.
    exists r, s, t, psc. repeat split; assumption.
Qed.

Lemma demo_outputs_agree_witness :
  run_recipe_cost_demo plain first_occurrence_order
    ("Pancakes" :: "4" :: pancakes_lines)
  = (Done tt,
     snd (run_recipe_cost_demo plain first_occurrence_order
            ("Pancakes" :: "4" :: pancakes_lines))) /\
  exists console,
    Forall is_console console /\
    (snd (run_recipe_cost_demo plain first_occurrence_order
            ("Pancakes" :: "4" :: pancakes_lines))
     = console
       ++ [Print [PStr "No ingredients added, nothing to calculate."]]
     \/
     exists r store total per_serving,
       recipe_shape r /\ ingredients r <> [] /\
       snd (run_recipe_cost_demo plain first_occurrence_order
              ("Pancakes" :: "4" :: pancakes_lines))
       = console ++ report_effects r store total per_serving /\
       cheapest_store first_occurrence_order r
       = (Return (Some store, total), r) /\
       per_serving_cost store r = (Return per_serving, r)).
Proof.
  assert (H : run_recipe_cost_demo plain first_occurrence_order
                ("Pancakes" :: "4" :: pancakes_lines)
              = (Done tt,
                 snd (run_recipe_cost_demo plain first_occurrence_order
                        ("Pancakes" :: "4" :: pancakes_lines))))
    by reflexivity.
  split; [exact H|].
  exact (demo_outputs_agree plain first_occurrence_order
           ("Pancakes" :: "4" :: pancakes_lines) _ H).
Defined.

(** X18. When the stores of an ingredient are closed with "done" and
    [add_ingredient] refuses the ingredient, the loop prints the error and
    asks whether to add another ingredient, with the recipe as it was: what
    was typed for the refused ingredient is dropped. *)
Theorem demo_refused_ingredient (b : builtins) (nm : string) (q : Q)
    (d : dict) (recipe : RecipeCost) (line : string) (inputs : list string)
    (log : list effect) :
  lower b (strip b line) = "done" -> rejected nm q d ->
  exists msg,
    interact b (AskStoreName nm q d) recipe (line :: inputs) log
    = interact b AskAddMore recipe inputs
        (log
         ++ [Prompt "Store name (or 'done' to stop adding stores): ";
             Print [PStr "Error:"; PExn (ValueError msg)]]).
Proof.
  intros Hdone Hrej. simpl. rewrite Hdone. simpl.
  destruct (add_ingredient_cases nm q d recipe) as [[_ [msg H]]|[Hok _]];
    [|contradiction].
  exists msg. rewrite H. now rewrite <- app_assoc.
Qed.

Lemma demo_refused_ingredient_witness :
  lower plain (strip plain "done") = "done" /\
  rejected "Egg" 0 [("A", 1)] /\
  exists msg,
    interact plain (AskStoreName "Egg" 0 [("A", 1)]) pancakes
      ("done" :: ["n"]) []
    = interact plain AskAddMore pancakes ["n"]
        ([] ++ [Prompt "Store name (or 'done' to stop adding stores): ";
                Print [PStr "Error:"; PExn (ValueError msg)]]).
Proof.
  assert (H1 : lower plain (strip plain "done") = "done") by reflexivity.
  assert (H2 : rejected "Egg" 0 [("A", 1)]).
  { right. left. unfold Qle. simpl. lia. }
  split; [exact H1|]. split; [exact H2|].
  exact (demo_refused_ingredient plain "Egg" 0 [("A", 1)] pancakes "done"
           ["n"] [] H1 H2).
Defined.

(** X19. A price that [float] accepts is stored under the store name just
    typed: the map under construction then gives that price for the store,
    keeps the price of every other store, and still has distinct keys; a
    store typed twice keeps the price typed last. *)
Theorem demo_price_entry (b : builtins) (nm : string) (q : Q) (d : dict)
    (st : string) (recipe : RecipeCost) (line : string) (v : Q) :
  float b line = Return v ->
  exists d',
    step b (AskPrice nm q d st) recipe line
    = Goto (AskStoreName nm q d') recipe [] /\
    get d' st = Some v /\
    (forall st', st' <> st -> get d' st' = get d st') /\
    (dict_wf d -> dict_wf d').
Proof.
  intros Hf. exists (dict_setitem d st v). simpl. rewrite Hf.
  split; [reflexivity|]. split; [apply dict_setitem_get_same|].
  split; [intros st'; apply dict_setitem_get_other|apply dict_setitem_wf].
Qed.

Lemma demo_price_entry_witness :
  float plain "7" = Return 7 /\
  exists d',
    step plain (AskPrice "Egg" 2 [("A", 3); ("B", 2)] "A") pancakes "7"
    = Goto (AskStoreName "Egg" 2 d') pancakes [] /\
    get d' "A" = Some 7 /\
    (forall st', st' <> "A" -> get d' st' = get [("A", 3); ("B", 2)] st') /\
    (dict_wf [("A", 3); ("B", 2)] -> dict_wf d').
Proof.
  split; [reflexivity|].
  exact (demo_price_entry plain "Egg" 2 [("A", 3); ("B", 2)] "A" pancakes
           "7" 7 eq_refl).
Defined.
